(** * girlgroup_2025: the scraper (bugs_scraping.py) and the cleaner (cleaning.py)

    A shallow embedding of the two source files of the repository.

    - [PyStr]: the Python string methods the sources call, over byte strings
      (a Python [str] is taken in its UTF-8 encoding; every pattern the
      sources search for is matched bytewise, which agrees with matching by
      code point on well-formed UTF-8).
    - [Soup]: the parsed document tree that BeautifulSoup hands to the
      extractors, with [find], [find_all], [.text], [.a] and [tag[key]].
    - [BugsMusicScraper]: the four extractors and the orchestration [main] of
      src/scraping/bugs_scraping.py, in a monad that records the requests and
      the warnings/errors logged and that carries Python exceptions.
    - [Pandas], [Regex] and [KpopDataCleaner]: the columns, dtypes, row
      operations and patterns src/scraping/cleaning.py uses, and the cleaner
      built on them.
    - [Samples]: pages and tables on which the functions are run.

    The properties follow: first those of the scraper, then those of the
    cleaner. *)

From Stdlib Require Import String Ascii List ZArith Bool Lia Permutation DecimalString.
Import ListNotations.
Set Warnings "-register-all".
Open Scope list_scope.
Open Scope string_scope.

(* ===================================================================== *)
(** ** Python exceptions and results *)
(* ===================================================================== *)

Inductive exn :=
| HTTPError        (* requests: raise_for_status on a 4xx/5xx answer *)
| AttributeError   (* attribute access on None, .str on a non-text column *)
| KeyError         (* tag[key] / df[col] with a missing key *)
| TypeError        (* None[key] *)
| IndexError       (* list index out of range *)
| ValueError.      (* pd.concat of an empty list *)

Inductive result (A : Type) :=
| Ok (a : A)
| Raise (e : exn).
Arguments Ok {A} a.
Arguments Raise {A} e.

Definition rbind {A B} (r : result A) (k : A -> result B) : result B :=
  match r with
  | Ok a => k a
  | Raise e => Raise e
  end.

Declare Scope py_scope.
Delimit Scope py_scope with py.
Notation "'let?' x ':=' r 'in' k" := (rbind r (fun x => k))
  (at level 10, x name, r at level 100, k at level 200) : py_scope.
Open Scope py_scope.

(** A [for] loop whose body may raise: the first exception leaves the loop. *)
Fixpoint rmap {A B} (f : A -> result B) (l : list A) : result (list B) :=
  match l with
  | [] => Ok []
  | x :: t => let? y := f x in let? ys := rmap f t in Ok (y :: ys)
  end.

(* ===================================================================== *)
(** ** Python string methods *)
(* ===================================================================== *)

Module PyStr.

(** [c in chars] *)
Fixpoint mem (c : ascii) (chars : string) : bool :=
  match chars with
  | EmptyString => false
  | String d t => Ascii.eqb c d || mem c t
  end.

(** [pat in s] for a literal pattern. *)
Fixpoint contains (pat s : string) : bool :=
  if prefix pat s then true
  else match s with
       | EmptyString => false
       | String _ t => contains pat t
       end.

(** [s.lstrip(chars)]: drops leading characters for as long as they belong
    to the SET [chars]. *)
Fixpoint lstrip (chars s : string) : string :=
  match s with
  | EmptyString => EmptyString
  | String c t => if mem c chars then lstrip chars t else s
  end.

(** [s.rstrip(chars)] *)
Fixpoint rstrip (chars s : string) : string :=
  match s with
  | EmptyString => EmptyString
  | String c t =>
      match rstrip chars t with
      | EmptyString => if mem c chars then EmptyString else String c EmptyString
      | t' => String c t'
      end
  end.

(** [s.strip(chars)] *)
Definition strip (chars s : string) : string := rstrip chars (lstrip chars s).

Definition LF : ascii := ascii_of_nat 10.
Definition CR : ascii := ascii_of_nat 13.

(** The ASCII white space [s.strip()] removes: TAB, LF, VT, FF, CR,
    FS, GS, RS, US and SPACE. *)
Definition whitespace : string :=
  String (ascii_of_nat 9) (String LF (String (ascii_of_nat 11)
  (String (ascii_of_nat 12) (String CR (String (ascii_of_nat 28)
  (String (ascii_of_nat 29) (String (ascii_of_nat 30)
  (String (ascii_of_nat 31) " "))))))))%string.

(** [s.strip()] *)
Definition strip_ws (s : string) : string := strip whitespace s.

(** [s.split(d)[0]]: the characters before the first [d] (all of [s] when
    [d] does not occur); the index 0 always exists. *)
Fixpoint split_head (d : ascii) (s : string) : string :=
  match s with
  | EmptyString => EmptyString
  | String c t => if Ascii.eqb c d then EmptyString else String c (split_head d t)
  end.

(** [s.replace(old, new)] for a non-empty [old]: occurrences are replaced
    from the left and do not overlap ([skip] counts the characters of a
    replaced occurrence still to be passed over). *)
Fixpoint replace_from (old new : string) (skip : nat) (s : string) : string :=
  match s with
  | EmptyString => EmptyString
  | String c t =>
      match skip with
      | S k => replace_from old new k t
      | O => if prefix old s
             then new ++ replace_from old new (String.length old - 1) t
             else String c (replace_from old new 0 t)
      end
  end.

Definition replace (old new s : string) : string := replace_from old new 0 s.

Definition NL : string := String LF "".
Definition CRLF : string := String CR (String LF "").

(** [s[n:]] *)
Fixpoint drop (n : nat) (s : string) : string :=
  match n, s with
  | S k, String _ t => drop k t
  | _, _ => s
  end.

(** [s.removeprefix(p)]: [s] without the fixed prefix [p], when it starts
    with it. *)
Definition removeprefix (p s : string) : string :=
  if prefix p s then drop (String.length p) s else s.

End PyStr.

(* ===================================================================== *)
(** ** The parsed document *)
(* ===================================================================== *)

Module Soup.

(** A BeautifulSoup node: a text node or a tag.  bs4 keeps the [class]
    attribute as the list of its tokens and every other attribute as a
    string, so the two are separate fields here. *)
Inductive node :=
| NavigableString (s : string)
| Tag (name : string) (classes : list string)
      (attrs : list (string * string)) (contents : list node).

(** All nodes below [n], in document order. *)
Fixpoint descendants (n : node) : list node :=
  match n with
  | NavigableString _ => []
  | Tag _ _ _ cs => flat_map (fun c => c :: descendants c) cs
  end.

Definition is_tag (nm : string) (n : node) : bool :=
  match n with
  | NavigableString _ => false
  | Tag nm' _ _ _ => String.eqb nm nm'
  end.

Definition has_class (c : string) (n : node) : bool :=
  match n with
  | NavigableString _ => false
  | Tag _ cls _ _ => existsb (String.eqb c) cls
  end.

(** [n.find_all(nm)] and [n.find_all(nm, attrs={'class': c})] *)
Definition find_all (nm : string) (cls : option string) (n : node) : list node :=
  filter (fun d => is_tag nm d &&
                   match cls with
                   | None => true
                   | Some c => has_class c d
                   end) (descendants n).

(** [n.find(...)]: the first match, or None. *)
Definition find (nm : string) (cls : option string) (n : node) : option node :=
  hd_error (find_all nm cls n).

(** [n.text]: the text nodes below [n], concatenated. *)
Fixpoint text (n : node) : string :=
  match n with
  | NavigableString s => s
  | Tag _ _ _ cs => String.concat "" (map text cs)
  end.

Fixpoint assoc (k : string) (l : list (string * string)) : option string :=
  match l with
  | [] => None
  | (k', v) :: t => if String.eqb k k' then Some v else assoc k t
  end.

(** [x.text] where [x] came from [find]: AttributeError on None. *)
Definition dot_text (x : option node) : result string :=
  match x with
  | None => Raise AttributeError
  | Some n => Ok (text n)
  end.

(** [x.a], [x.img], [x.xmp]: the first tag of that name below [x], or
    None; AttributeError when [x] itself is None. *)
Definition dot_child (nm : string) (x : option node) : result (option node) :=
  match x with
  | None => Raise AttributeError
  | Some n => Ok (find nm None n)
  end.

(** [x[key]]: TypeError on None, KeyError when the tag has no such
    attribute. *)
Definition getitem (x : option node) (key : string) : result string :=
  match x with
  | None => Raise TypeError
  | Some (NavigableString _) => Raise TypeError
  | Some (Tag _ _ attrs _) =>
      match assoc key attrs with
      | Some v => Ok v
      | None => Raise KeyError
      end
  end.

End Soup.

(* ===================================================================== *)
(** ** The effects of the scraper: requests, log lines, exceptions *)
(* ===================================================================== *)

(** What a run leaves behind, in order: the URLs requested and the warning
    and error lines logged (the text of an exception at the end of a log line
    is left out; info lines and the sleep between requests are not
    recorded). *)
Inductive event :=
| Get (url : string)
| LogWarning (msg : string)
| LogError (msg : string).

(** A computation returns or raises, and has emitted some events. *)
Definition M (A : Type) : Type := (result A * list event)%type.

Definition ret {A} (a : A) : M A := (Ok a, []).

Definition bind {A B} (m : M A) (k : A -> M B) : M B :=
  match m with
  | (Ok a, t) => let (r, t') := k a in (r, (t ++ t')%list)
  | (Raise e, t) => (Raise e, t)
  end.

Definition emit (e : event) : M unit := (Ok tt, [e]).
Definition raise {A} (e : exn) : M A := (Raise e, []).
Definition lift {A} (r : result A) : M A := (r, []).

(** [try: body except Exception as e: handler] *)
Definition try_except {A} (body : M A) (handler : exn -> M A) : M A :=
  match body with
  | (Ok a, t) => (Ok a, t)
  | (Raise e, t) => let (r, t') := handler e in (r, (t ++ t')%list)
  end.

Notation "x <- c ;; k" := (bind c (fun x => k))
  (at level 61, c at next level, right associativity) : py_scope.
Notation "c ;; k" := (bind c (fun _ => k))
  (at level 61, right associativity) : py_scope.

(** [for x in l: if (y := f x) is not None: acc.append(y)] *)
Fixpoint collect {A B} (f : A -> M (option B)) (l : list A) : M (list B) :=
  match l with
  | [] => ret []
  | x :: t =>
      y <- f x ;;
      ys <- collect f t ;;
      ret (match y with Some b => b :: ys | None => ys end)
  end.

(** [for x in l: acc.append(f x)] *)
Fixpoint for_each {A B} (f : A -> M B) (l : list A) : M (list B) :=
  match l with
  | [] => ret []
  | x :: t => y <- f x ;; ys <- for_each f t ;; ret (y :: ys)
  end.

(** [pd.concat(frames)]: ValueError on an empty list of frames. *)
Definition pd_concat {A} (frames : list (list A)) : result (list A) :=
  match frames with
  | [] => Raise ValueError
  | _ => Ok (List.concat frames)
  end.

(** [left.merge(right, how='left', on=key)]: every left row, in order, with
    each right row of the same key, or once with nothing on the right. *)
Definition merge_left {A B} (same_key : A -> B -> bool)
    (left : list A) (right : list B) : list (A * option B) :=
  flat_map (fun a =>
              match filter (same_key a) right with
              | [] => [(a, None)]
              | ms => map (fun b => (a, Some b)) ms
              end) left.

(** [df.drop_duplicates(subset=...)]: keeps the first row of each group of
    rows that agree on the subset. *)
Fixpoint drop_duplicates_from {A} (same : A -> A -> bool) (seen l : list A) : list A :=
  match l with
  | [] => []
  | x :: t =>
      if existsb (same x) seen then drop_duplicates_from same seen t
      else x :: drop_duplicates_from same (x :: seen) t
  end.

Definition drop_duplicates {A} (same : A -> A -> bool) (l : list A) : list A :=
  drop_duplicates_from same [] l.

(* ===================================================================== *)
(** ** src/scraping/bugs_scraping.py *)
(* ===================================================================== *)

(** One row of each table the scraper builds. *)
Module AlbumSummary.
Record t := mk {
  album_id : string;
  album_title : string;
  artist_name : string;
  release_date : option Soup.node;   (* the <time> tag, or None *)
  type : option Soup.node;           (* the albumType <span>, or None *)
  artist_id : string }.
End AlbumSummary.

Module AlbumDetail.
Record t := mk {
  album_id : string;
  genre : string;
  style : string;
  distributor : string;
  agency : string;
  total_duration : string;
  thumbnail : string }.
End AlbumDetail.

Module Track.
Record t := mk {
  album_id : string;
  track_id : string;
  track_title : string }.
End Track.

Module Lyrics.
Record t := mk {
  track_id : string;
  duration : string;
  lyrics : string }.
End Lyrics.

(** A row of [album_final]: an album with the detail row merged to it, if
    any. *)
Module AlbumFinal.
Definition t : Type := (AlbumSummary.t * option AlbumDetail.t)%type.
Definition album_id (r : t) : string := AlbumSummary.album_id (fst r).
Definition album_title (r : t) : string := AlbumSummary.album_title (fst r).
End AlbumFinal.

(** The three files [main] writes. *)
Record Outputs := mkOutputs {
  kpop_girl_group_albums : list AlbumFinal.t;
  kpop_girl_group_tracks : list Track.t;
  kpop_girl_group_lyrics : list Lyrics.t }.

(** What [requests.get] answers: the status code and the body, already
    parsed by [BeautifulSoup(html, 'html.parser')]. *)
Record response := mkResponse {
  status_code : Z;
  html : Soup.node }.

Module BugsMusicScraper.
Import PyStr Soup.

Definition BASE_URL : string := "https://music.bugs.co.kr".

(** [response.raise_for_status()]: HTTPError on 4xx and 5xx. *)
Definition raise_for_status (r : response) : M unit :=
  if ((400 <=? status_code r) && (status_code r <? 600))%Z
  then raise HTTPError else ret tt.

(** The answers on which [_get_soup] raises. *)
Definition fetch_fails (r : response) : bool :=
  (negb (status_code r =? 200) && (400 <=? status_code r) && (status_code r <? 600))%Z.

Section Scraper.

(** The site: the answer to a GET of each URL. *)
Variable web : string -> response.

Definition _get_soup (url : string) : M node :=
  emit (Get url) ;;
  let response := web url in
  (if negb (status_code response =? 200)%Z
   then emit (LogWarning ("Failed to get " ++ url)) ;; raise_for_status response
   else ret tt) ;;
  ret (html response).

(** The body of the loop of [get_artist_albums]. *)
Definition album_row (artist_id : string) (album_info : node) : result AlbumSummary.t :=
  let? album_id := getitem (Some album_info) "albumid" in
  let? title := dot_text (find "div" (Some "albumTitle") album_info) in
  let? artist := dot_text (find "p" (Some "artist") album_info) in
  Ok (AlbumSummary.mk album_id (strip NL title) (strip NL artist)
        (find "time" None album_info)
        (find "span" (Some "albumType") album_info)
        artist_id).

Definition albums_of_soup (artist_id : string) (soup : node) : result (list AlbumSummary.t) :=
  rmap (album_row artist_id) (find_all "figure" (Some "albumInfo") soup).

Definition get_artist_albums (artist_id : string) : M (list AlbumSummary.t) :=
  let url := BASE_URL ++ "/artist/" ++ artist_id ++ "/albums" in
  soup <- _get_soup url ;;
  lift (albums_of_soup artist_id soup).

(** [temp_list]: the stripped text of every cell of every info table. *)
Definition info_cells (soup : node) : result (list string) :=
  let? per_table :=
    rmap (fun table =>
            match find "tbody" None table with
            | None => Raise AttributeError
            | Some tbody => Ok (map (fun cell => strip_ws (text cell))
                                    (find_all "td" None tbody))
            end) (find_all "table" (Some "info") soup) in
  Ok (List.concat per_table).

(** [l[i]] *)
Definition index (l : list string) (i : nat) : result string :=
  match nth_error l i with
  | Some x => Ok x
  | None => Raise IndexError
  end.

(** [soup.find('li', attrs={'class': 'big'}).a.img['src']] *)
Definition thumbnail_of_soup (soup : node) : result string :=
  let? a := dot_child "a" (find "li" (Some "big") soup) in
  let? img := dot_child "img" a in
  getitem img "src".

Definition details_of_soup (album_id : string) (soup : node) : result AlbumDetail.t :=
  let? thumbnail := thumbnail_of_soup soup in
  let? temp_list := info_cells soup in
  let? genre := index temp_list 2 in
  let? style := index temp_list 3 in
  let? distributor := index temp_list 5 in
  let? agency := index temp_list 6 in
  let? total_duration := index temp_list 7 in
  Ok (AlbumDetail.mk album_id genre style distributor agency total_duration thumbnail).

Definition get_album_details (album_id : string) : M (option AlbumDetail.t) :=
  try_except
    (let url := BASE_URL ++ "/album/" ++ album_id in
     soup <- _get_soup url ;;
     df <- lift (details_of_soup album_id soup) ;;
     ret (Some df))
    (fun e =>
       emit (LogError ("Failed to get details for album " ++ album_id)) ;;
       ret None).

Definition LISTEN_PREFIX : string :=
  "bugs.wiselog.area('list_tr_09_ab');bugs.music.listen('".

(** [onclick.lstrip(LISTEN_PREFIX).split("'")[0]] *)
Definition track_id_of_onclick (onclick : string) : string :=
  split_head "'"%char (lstrip LISTEN_PREFIX onclick).

Definition track_row (album_id : string) (elem : node) : result Track.t :=
  let? a := dot_child "a" (Some elem) in
  let? onclick := getitem a "onclick" in
  Ok (Track.mk album_id (track_id_of_onclick onclick) (replace NL "" (text elem))).

Definition tracks_of_soup (album_id : string) (soup : node) : result (list Track.t) :=
  rmap (track_row album_id) (find_all "p" (Some "title") soup).

Definition get_album_tracks (album_id : string) : M (option (list Track.t)) :=
  try_except
    (let url := BASE_URL ++ "/album/" ++ album_id in
     soup <- _get_soup url ;;
     df <- lift (tracks_of_soup album_id soup) ;;
     ret (Some df))
    (fun e =>
       emit (LogError ("Failed to get tracks for album " ++ album_id)) ;;
       ret None).

Definition lyrics_of_soup (track_id : string) (soup : node) : result Lyrics.t :=
  let? duration := dot_text (find "time" None soup) in
  let? xmp := dot_child "xmp" (find "div" (Some "lyricsContainer") soup) in
  let? lyrics := dot_text xmp in
  Ok (Lyrics.mk track_id duration (replace CRLF " " lyrics)).

Definition get_track_lyrics (track_id : string) : M (option Lyrics.t) :=
  try_except
    (let url := BASE_URL ++ "/track/" ++ track_id in
     soup <- _get_soup url ;;
     df <- lift (lyrics_of_soup track_id soup) ;;
     ret (Some df))
    (fun e =>
       emit (LogError ("Failed to get lyrics for track " ++ track_id)) ;;
       ret None).

(** The rows [main] keeps, [album_clean]: four successive selections, on
    a table that has rows (see [str_columns] for the table without). *)
Definition clean_albums (album_df_total : list AlbumSummary.t) : list AlbumSummary.t :=
  let album_clean :=
    filter (fun r => negb (contains "권리없는" (AlbumSummary.album_title r))) album_df_total in
  let album_clean :=
    filter (fun r => negb (contains " OST" (AlbumSummary.album_title r))) album_clean in
  let album_clean :=
    filter (fun r => negb (contains "일본" (AlbumSummary.album_title r))) album_clean in
  filter (fun r => negb (contains "Various Artists" (AlbumSummary.artist_name r))) album_clean.

(** [album_df_total['album_title'].str], line 213: a table without rows has
    no text column, and [.str] raises AttributeError. *)
Definition str_columns {A} (table : list A) : result unit :=
  match table with
  | [] => Raise AttributeError
  | _ :: _ => Ok tt
  end.

(** A row that one of the four selections of [clean_albums] removes. *)
Definition excluded (r : AlbumSummary.t) : bool :=
  contains "권리없는" (AlbumSummary.album_title r) ||
  contains " OST" (AlbumSummary.album_title r) ||
  contains "일본" (AlbumSummary.album_title r) ||
  contains "Various Artists" (AlbumSummary.artist_name r).

(** Step 1 of [main]: the albums of every artist, concatenated. *)
Definition collect_albums (artist_id_list : list string) : M (list AlbumSummary.t) :=
  artist_album_dfs <- for_each get_artist_albums artist_id_list ;;
  lift (pd_concat artist_album_dfs).

Definition same_album_id (a : AlbumSummary.t) (d : AlbumDetail.t) : bool :=
  String.eqb (AlbumSummary.album_id a) (AlbumDetail.album_id d).

(** [subset=['album_id', 'album_title']] *)
Definition same_id_title (x y : AlbumFinal.t) : bool :=
  String.eqb (AlbumFinal.album_id x) (AlbumFinal.album_id y) &&
  String.eqb (AlbumFinal.album_title x) (AlbumFinal.album_title y).

(** [main]; its argument is the outcome of reading the artist list from
    the spreadsheet.  It returns the three tables it writes, or None when
    the artist list could not be read. *)
Definition main (artist_list : result (list string)) : M (option Outputs) :=
  match artist_list with
  | Raise _ => emit (LogError "Failed to load artist list") ;; ret None
  | Ok artist_id_list =>
      album_df_total <- collect_albums artist_id_list ;;
      lift (str_columns album_df_total) ;;
      let album_clean := clean_albums album_df_total in
      album_details <-
        collect get_album_details (map AlbumSummary.album_id album_clean) ;;
      album_detail_df <- lift (pd_concat (map (fun d => [d]) album_details)) ;;
      let album_final :=
        drop_duplicates same_id_title
          (merge_left same_album_id album_clean album_detail_df) in
      album_tracks <-
        collect get_album_tracks (map AlbumFinal.album_id album_final) ;;
      album_track_df <- lift (pd_concat album_tracks) ;;
      lyrics_dfs <-
        collect get_track_lyrics (map Track.track_id album_track_df) ;;
      lyrics_df <- lift (pd_concat (map (fun d => [d]) lyrics_dfs)) ;;
      ret (Some (mkOutputs album_final album_track_df lyrics_df))
  end.

End Scraper.
End BugsMusicScraper.

(* ===================================================================== *)
(** ** The pandas operations of cleaning.py *)
(* ===================================================================== *)

Module Pandas.
Import PyStr.
Local Open Scope Z_scope.

(** The dtype of a column: [read_csv] gives int64 (all numbers), float64
    (numbers and holes) or object (text and holes); datetime64 comes from
    [to_datetime]. *)
Inductive dtype := int64 | float64 | object | datetime64.

Definition dtype_eqb (a b : dtype) : bool :=
  match a, b with
  | int64, int64 | float64, float64 | object, object | datetime64, datetime64 => true
  | _, _ => false
  end.

(** [pd.api.types.is_numeric_dtype] *)
Definition is_numeric_dtype (d : dtype) : bool :=
  match d with
  | int64 | float64 => true
  | object | datetime64 => false
  end.

Record date := mkDate { year : Z; month : Z; day : Z }.

(** A value in a column.  Numbers are integers (the identifiers of the site
    are; in a float64 column [Int z] is the float of that value). *)
Inductive cell :=
| NaN
| Int (z : Z)
| Str (s : string)
| Timestamp (d : date)
| NaT.

Definition isna (c : cell) : bool :=
  match c with
  | NaN | NaT => true
  | _ => false
  end.

(** Equality of values as [==] and as join keys, where a hole matches a
    hole. *)
Definition cell_eqb (a b : cell) : bool :=
  match a, b with
  | NaN, NaN | NaT, NaT => true
  | Int x, Int y => (x =? y)%Z
  | Str x, Str y => String.eqb x y
  | Timestamp x, Timestamp y =>
      ((year x =? year y) && (month x =? month y) && (day x =? day y))%Z
  | _, _ => false
  end.

(** [series != value]: elementwise, and a hole differs from everything. *)
Definition ne (c : cell) (v : string) : bool :=
  match c with
  | Str s => negb (String.eqb s v)
  | _ => true
  end.

(** A table: its columns are the fields of the record [R], once with the
    dtype of each column and once per row with its value. *)
Record DataFrame (R : Type -> Type) := mkDF {
  dtypes : R dtype;
  rows : list (R cell) }.
Arguments mkDF {R} dtypes rows.
Arguments dtypes {R} d.
Arguments rows {R} d.

(** [df[mask]] *)
Definition select {R : Type -> Type} (mask : R cell -> bool) (df : DataFrame R) : DataFrame R :=
  mkDF (dtypes df) (filter mask (rows df)).

(** [series.str]: only a text column has it.  (An object column holds text
    and holes, as [read_csv] and [astype(str)] make it.) *)
Definition str_accessor (d : dtype) : result unit :=
  match d with
  | object => Ok tt
  | _ => Raise AttributeError
  end.

(** [series.str.contains(pat, na=False)] for a literal [pat], per element. *)
Definition str_contains (pat : string) (c : cell) : bool :=
  match c with
  | Str s => contains pat s
  | _ => false
  end.

(** *** Numbers *)

Definition digit (c : ascii) : option Z :=
  let n := nat_of_ascii c in
  if (48 <=? n)%nat && (n <=? 57)%nat then Some (Z.of_nat (n - 48)) else None.

Fixpoint digits (acc : Z) (s : string) : option Z :=
  match s with
  | EmptyString => Some acc
  | String c t =>
      match digit c with
      | Some d => digits (10 * acc + d) t
      | None => None
      end
  end.

(** Some character of [s] is a digit. *)
Fixpoint has_digit (s : string) : bool :=
  match s with
  | EmptyString => false
  | String c t => match digit c with
                  | Some _ => true
                  | None => has_digit t
                  end
  end.

(** The integer literals: an optional sign and at least one digit. *)
Definition parse_int (s : string) : option Z :=
  match s with
  | EmptyString => None
  | String "-" (String _ _ as t) => option_map Z.opp (digits 0 t)
  | String "+" (String _ _ as t) => digits 0 t
  | _ => digits 0 s
  end.

Definition leap (y : Z) : bool :=
  ((y mod 4 =? 0) && (negb (y mod 100 =? 0) || (y mod 400 =? 0)))%Z.

Definition days_in_month (y m : Z) : Z :=
  if (m =? 2)%Z then (if leap y then 29 else 28)
  else if ((m =? 4) || (m =? 6) || (m =? 9) || (m =? 11))%Z then 30 else 31.

(** Days from 1970-01-01 to [d] (civil calendar). *)
Definition days_from_epoch (d : date) : Z :=
  let y := if (month d <=? 2)%Z then year d - 1 else year d in
  let era := y / 400 in
  let yoe := y - era * 400 in
  let mp := (month d + 9) mod 12 in
  let doy := (153 * mp + 2) / 5 + day d - 1 in
  let doe := yoe * 365 + yoe / 4 - yoe / 100 + doy in
  era * 146097 + doe - 719468.

(** [pd.to_numeric(x, errors='coerce')] on one value: text that is not a
    number becomes a hole; a timestamp is its nanoseconds since the epoch.
    Numbers are read as integer literals, which is what pandas computes for
    the identifiers of the site (see [plain_id] below); a text that pandas
    reads as a float (1.5, 1e3, inf, digits within blanks) or an integer
    that a float64 or an int64 does not hold is outside the model. *)
Definition to_numeric_cell (c : cell) : cell :=
  match c with
  | Str s => match parse_int s with
             | Some z => Int z
             | None => NaN
             end
  | Int z => Int z
  | Timestamp d => Int (days_from_epoch d * 86400000000000)
  | NaT => Int (- 9223372036854775808)
  | NaN => NaN
  end.

Definition is_int (c : cell) : bool :=
  match c with
  | Int _ => true
  | _ => false
  end.

(** The dtype [to_numeric] gives a column of these values: a numeric column
    keeps its own; otherwise int64 when every value is a number, float64 as
    soon as there is a hole. *)
Definition to_numeric_dtype (d : dtype) (values : list cell) : dtype :=
  match d with
  | int64 => int64
  | float64 => float64
  | _ => if forallb is_int (map to_numeric_cell values) then int64 else float64
  end.

(** [series.astype('int64')]: raises on a hole. *)
Definition astype_int64 (values : list cell) : result unit :=
  if existsb isna values then Raise ValueError else Ok tt.

(** *** Text *)

Definition decimal (z : Z) : string := NilEmpty.string_of_int (Z.to_int z).

Definition pad2 (z : Z) : string :=
  if (z <? 10)%Z then "0" ++ decimal z else decimal z.

(** [str(x)] for a value of a column of dtype [d], as [astype(str)] does
    (a float is written without exponent, as Python does below 1e16). *)
Definition astype_str (d : dtype) (c : cell) : cell :=
  Str (match c with
       | NaN => "nan"
       | NaT => "NaT"
       | Int z => match d with
                  | float64 => decimal z ++ ".0"
                  | _ => decimal z
                  end
       | Str s => s
       | Timestamp t => decimal (year t) ++ "-" ++ pad2 (month t) ++ "-" ++ pad2 (day t)
       end).

(** A [.str] method on one element: a hole stays a hole. *)
Definition str_map (f : string -> string) (c : cell) : cell :=
  match c with
  | Str s => Str (f s)
  | _ => NaN
  end.

(** The dtype of a right-hand column after a left merge: holes turn an
    int64 column into float64. *)
Definition with_holes (any_hole : bool) (d : dtype) : dtype :=
  match d with
  | int64 => if any_hole then float64 else int64
  | _ => d
  end.

(** Join keys can be compared when both are numbers or both are text. *)
Definition mergeable (l r : dtype) : bool :=
  (is_numeric_dtype l && is_numeric_dtype r) || dtype_eqb l r.

(** [merge] leaves the key dtypes unchecked when exactly one of the two
    tables has no rows. *)
Definition one_side_empty {A B} (left : list A) (right : list B) : bool :=
  match left, right with
  | [], _ :: _ | _ :: _, [] => true
  | _, _ => false
  end.

(** The check [merge] makes on a pair of key columns before joining. *)
Definition keys_accepted {A B} (l r : dtype) (left : list A) (right : list B) : bool :=
  one_side_empty left right || mergeable l r.

End Pandas.

(* ===================================================================== *)
(** ** The regular expressions of cleaning.py *)
(* ===================================================================== *)

Module Regex.
Import PyStr.

(** [.*?] followed by the literal [stop]: the shortest run of characters
    other than a line feed after which [stop] comes; gives the run and what
    follows [stop]. *)
Fixpoint lazy_until (stop s : string) : option (string * string) :=
  if prefix stop s then Some ("", drop (String.length stop) s)
  else match s with
       | EmptyString => None
       | String c t =>
           if Ascii.eqb c LF then None
           else match lazy_until stop t with
                | Some (u, r) => Some (String c u, r)
                | None => None
                end
       end.

(** A match of [<tag.*?>(.*?)</tag>] at the start of [s]: the captured group
    and what follows the match.  (A later [>] cannot succeed where the first
    one fails: the closing tag it needs lies after the same line feed.) *)
Definition match_wrapped (tag s : string) : option (string * string) :=
  if prefix ("<" ++ tag) s then
    match lazy_until ">" (drop (String.length ("<" ++ tag)) s) with
    | Some (_, r1) => lazy_until ("</" ++ tag ++ ">") r1
    | None => None
    end
  else None.

(** [re.sub(r'<tag.*?>(.*?)</tag>', r'\1', s)]: each match, from the left,
    is replaced by its group ([skip] counts the characters of a match still
    to be passed over). *)
Fixpoint unwrap_from (tag : string) (skip : nat) (s : string) : string :=
  match s with
  | EmptyString => EmptyString
  | String c t =>
      match skip with
      | S k => unwrap_from tag k t
      | O =>
          match match_wrapped tag s with
          | Some (inner, rest) =>
              inner ++ unwrap_from tag (String.length s - String.length rest - 1) t
          | None => String c (unwrap_from tag 0 t)
          end
      end
  end.

Definition unwrap (tag s : string) : string := unwrap_from tag 0 s.

(** ASCII lower case, for [case=False]. *)
Definition lower_char (c : ascii) : ascii :=
  let n := nat_of_ascii c in
  if (65 <=? n)%nat && (n <=? 90)%nat then ascii_of_nat (n + 32) else c.

Fixpoint lower (s : string) : string :=
  match s with
  | EmptyString => EmptyString
  | String c t => String (lower_char c) (lower t)
  end.

(** A pattern of the filters: a literal, or a literal followed by [.] (any
    character but a line feed). *)
Inductive alt :=
| Lit (s : string)
| LitDot (s : string).

Definition alt_at (a : alt) (s : string) : bool :=
  match a with
  | Lit p => prefix p s
  | LitDot p =>
      prefix p s &&
      match drop (String.length p) s with
      | EmptyString => false
      | String c _ => negb (Ascii.eqb c LF)
      end
  end.

Fixpoint search_lowered (alts : list alt) (s : string) : bool :=
  existsb (fun a => alt_at a s) alts ||
  match s with
  | EmptyString => false
  | String _ t => search_lowered alts t
  end.

(** [re.search('a|b|...', s, re.IGNORECASE)] for lower-case alternatives. *)
Definition search_nocase (alts : list alt) (s : string) : bool :=
  search_lowered alts (lower s).

(** [s.split(sep)[0]] *)
Fixpoint split_first (sep s : string) : string :=
  if prefix sep s then EmptyString
  else match s with
       | EmptyString => EmptyString
       | String c t => String c (split_first sep t)
       end.

End Regex.

(* ===================================================================== *)
(** ** src/scraping/cleaning.py *)
(* ===================================================================== *)

(** The columns of the three files the cleaner loads, and of the tables it
    builds from them. *)
Module Albums.
Record t (T : Type) := mk {
  album_id : T; album_title : T; artist_name : T; release_date : T;
  type : T; artist_id : T; genre : T; style : T; distributor : T;
  agency : T; total_duration : T; thumbnail : T }.
Arguments mk {T}.
Arguments album_id {T}. Arguments album_title {T}. Arguments artist_name {T}.
Arguments release_date {T}. Arguments type {T}. Arguments artist_id {T}.
Arguments genre {T}. Arguments style {T}. Arguments distributor {T}.
Arguments agency {T}. Arguments total_duration {T}. Arguments thumbnail {T}.
End Albums.

Module Tracks.
Record t (T : Type) := mk { album_id : T; track_id : T; track_title : T }.
Arguments mk {T}.
Arguments album_id {T}. Arguments track_id {T}. Arguments track_title {T}.
Definition set_track_id {T} (v : T) (r : t T) : t T :=
  mk (album_id r) v (track_title r).
End Tracks.

Module LyricsCsv.
Record t (T : Type) := mk { track_id : T; duration : T; lyrics : T }.
Arguments mk {T}.
Arguments track_id {T}. Arguments duration {T}. Arguments lyrics {T}.
Definition set_track_id {T} (v : T) (r : t T) : t T :=
  mk v (duration r) (lyrics r).
End LyricsCsv.

(** [album_df.merge(track_df)]: the album columns and the two track
    columns. *)
Module AlbumTracks.
Record t (T : Type) := mk { album : Albums.t T; track_id : T; track_title : T }.
Arguments mk {T}.
Arguments album {T}. Arguments track_id {T}. Arguments track_title {T}.
Definition set_track_id {T} (v : T) (r : t T) : t T :=
  mk (album r) v (track_title r).
End AlbumTracks.

(** [df_total]: with the lyrics columns, and with [artist_name_clean] once
    [clean_html_tags] has added it. *)
Module Total.
Record t (T : Type) := mk {
  album : Albums.t T; track_id : T; track_title : T;
  duration : T; lyrics : T; artist_name_clean : option T }.
Arguments mk {T}.
Arguments album {T}. Arguments track_id {T}. Arguments track_title {T}.
Arguments duration {T}. Arguments lyrics {T}. Arguments artist_name_clean {T}.
Definition album_id {T} (r : t T) : T := Albums.album_id (album r).
Definition album_title {T} (r : t T) : T := Albums.album_title (album r).
Definition artist_name {T} (r : t T) : T := Albums.artist_name (album r).
End Total.

Module KpopDataCleaner.
Import PyStr Pandas Regex.

(** *** clean_track_ids *)

Definition is_login_layer (r : Tracks.t cell) : bool :=
  str_contains "howLoginLayer" (Tracks.track_id r).

(** Lines 78-88, the [try] and its [except].  (With [to_numeric_cell] no
    value is left after [dropna] that [astype('int64')] refuses, so the
    [except] branch is only reached outside the identifiers of
    [plain_id] below.) *)
Definition convert_track_ids (track_df : DataFrame Tracks.t) : DataFrame Tracks.t :=
  let ids := map Tracks.track_id (rows track_df) in
  (* track_df['track_id'] = pd.to_numeric(track_df['track_id'], errors='coerce') *)
  let track_df :=
    mkDF (Tracks.set_track_id
            (to_numeric_dtype (Tracks.track_id (dtypes track_df)) ids) (dtypes track_df))
         (map (fun r => Tracks.set_track_id (to_numeric_cell (Tracks.track_id r)) r)
              (rows track_df)) in
  (* track_df = track_df.dropna(subset=['track_id']) *)
  let track_df := select (fun r => negb (isna (Tracks.track_id r))) track_df in
  (* track_df['track_id'] = track_df['track_id'].astype('int64') *)
  match astype_int64 (map Tracks.track_id (rows track_df)) with
  | Ok _ => mkDF (Tracks.set_track_id int64 (dtypes track_df)) (rows track_df)
  | Raise _ =>
      (* track_df['track_id'] = track_df['track_id'].astype(str).str.strip() *)
      let d := Tracks.track_id (dtypes track_df) in
      mkDF (Tracks.set_track_id object (dtypes track_df))
           (map (fun r => Tracks.set_track_id
                            (str_map strip_ws (astype_str d (Tracks.track_id r))) r)
                (rows track_df))
  end.

Definition clean_track_ids (track_df : DataFrame Tracks.t) : result (DataFrame Tracks.t) :=
  (* track_df['track_id'].str.contains('howLoginLayer', na=False) *)
  let? _ := str_accessor (Tracks.track_id (dtypes track_df)) in
  let login_layer_rows := select is_login_layer track_df in
  let track_df :=
    match rows login_layer_rows with
    | [] => track_df
    | _ :: _ => select (fun r => negb (is_login_layer r)) track_df
    end in
  Ok (convert_track_ids track_df).

Fixpoint is_ascii (s : string) : bool :=
  match s with
  | EmptyString => true
  | String c t => (nat_of_ascii c <? 128)%nat && is_ascii t
  end.

(** The identifiers on which [to_numeric_cell] is what pandas computes: a
    null, a text of one to fifteen digits (an integer that a float64 holds
    exactly), or an ASCII text that is no number at all (no digit in it,
    and no spelling of infinity). *)
Definition plain_id (c : cell) : bool :=
  match c with
  | NaN => true
  | Str s =>
      match digits 0 s with
      | Some _ => (1 <=? String.length s)%nat && (String.length s <=? 15)%nat
      | None => negb (has_digit s) && (negb (contains "inf" (lower s)) && is_ascii s)
      end
  | _ => false
  end.

(** A row with its identifier read as a number, when the identifier is a
    text of digits. *)
Definition numbered (r : Tracks.t cell) : option (Tracks.t cell) :=
  match Tracks.track_id r with
  | Str s => option_map (fun z => Tracks.set_track_id (Int z) r) (digits 0 s)
  | _ => None
  end.

(** *** filter_data *)

(** The columns [filter_data] looks for in its table: each is there (with
    the way to read it, in a row and in the dtypes) or not. *)
Record FilterColumns (R : Type -> Type) := mkFilterColumns {
  col_artist_name : option (forall T : Type, R T -> T);
  col_lyrics : option (forall T : Type, R T -> T);
  col_album_title : option (forall T : Type, R T -> T);
  col_track_title : option (forall T : Type, R T -> T) }.
Arguments col_artist_name {R}.
Arguments col_lyrics {R}.
Arguments col_album_title {R}.
Arguments col_track_title {R}.

(** 'remix|japan|일본|inst|repackage|chinese| ver.' *)
Definition album_patterns : list alt :=
  [Lit "remix"; Lit "japan"; Lit "일본"; Lit "inst"; Lit "repackage";
   Lit "chinese"; LitDot " ver"].

(** '권리없는|remix|japan|chinese| inst | ver.' *)
Definition song_patterns : list alt :=
  [Lit "권리없는"; Lit "remix"; Lit "japan"; Lit "chinese"; Lit " inst ";
   LitDot " ver"].

(** [series.str.contains(patterns, case=False, na=False)], per element. *)
Definition matches_nocase (alts : list alt) (c : cell) : bool :=
  match c with
  | Str s => search_nocase alts s
  | _ => false
  end.

(** [series.str.strip() != ''], per element. *)
Definition not_blank (c : cell) : bool :=
  match c with
  | Str s => negb (String.eqb (strip_ws s) "")
  | _ => true
  end.

Section Filter.
Context {R : Type -> Type}.
Variable cols : FilterColumns R.

(** The four removals, each guarded by [if column in df.columns]. *)
Definition drop_various_artists (df : DataFrame R) : result (DataFrame R) :=
  match col_artist_name cols with
  | Some artist_name =>
      Ok (select (fun r => ne (artist_name cell r) "Various Artists") df)
  | None => Ok df
  end.

Definition drop_empty_lyrics (df : DataFrame R) : result (DataFrame R) :=
  match col_lyrics cols with
  | Some lyrics =>
      let? _ := str_accessor (lyrics dtype (dtypes df)) in
      let df := select (fun r => not_blank (lyrics cell r)) df in
      Ok (select (fun r => ne (lyrics cell r) "nan") df)
  | None => Ok df
  end.

Definition drop_album_patterns (df : DataFrame R) : result (DataFrame R) :=
  match col_album_title cols with
  | Some album_title =>
      let? _ := str_accessor (album_title dtype (dtypes df)) in
      Ok (select (fun r => negb (matches_nocase album_patterns (album_title cell r))) df)
  | None => Ok df
  end.

Definition drop_track_patterns (df : DataFrame R) : result (DataFrame R) :=
  match col_track_title cols with
  | Some track_title =>
      let? _ := str_accessor (track_title dtype (dtypes df)) in
      Ok (select (fun r => negb (matches_nocase song_patterns (track_title cell r))) df)
  | None => Ok df
  end.

Definition filter_data (df : DataFrame R) : result (DataFrame R) :=
  let? df := drop_various_artists df in
  let? df := drop_empty_lyrics df in
  let? df := drop_album_patterns df in
  drop_track_patterns df.

(** A step that checks the dtypes, raising AttributeError when the check
    fails, and then selects rows. *)
Definition selection (step : DataFrame R -> result (DataFrame R))
    (gp : (R dtype -> bool) * (R cell -> bool)) : Prop :=
  forall df, step df = if fst gp (dtypes df) then Ok (select (snd gp) df)
                       else Raise AttributeError.

(** The removals applied in a given order. *)
Fixpoint apply_steps (steps : list (DataFrame R -> result (DataFrame R)))
    (df : DataFrame R) : result (DataFrame R) :=
  match steps with
  | [] => Ok df
  | step :: rest => let? df := step df in apply_steps rest df
  end.

Definition filter_steps : list (DataFrame R -> result (DataFrame R)) :=
  [drop_various_artists; drop_empty_lyrics; drop_album_patterns; drop_track_patterns].

(** The test each removal makes on a row, for the columns that are
    there. *)
Definition keeps_artist (r : R cell) : bool :=
  match col_artist_name cols with
  | Some artist_name => ne (artist_name cell r) "Various Artists"
  | None => true
  end.

Definition keeps_lyrics (r : R cell) : bool :=
  match col_lyrics cols with
  | Some lyrics => not_blank (lyrics cell r) && ne (lyrics cell r) "nan"
  | None => true
  end.

Definition keeps_album (r : R cell) : bool :=
  match col_album_title cols with
  | Some album_title => negb (matches_nocase album_patterns (album_title cell r))
  | None => true
  end.

Definition keeps_track (r : R cell) : bool :=
  match col_track_title cols with
  | Some track_title => negb (matches_nocase song_patterns (track_title cell r))
  | None => true
  end.

(** The rows that pass the four removals. *)
Definition survives (r : R cell) : bool :=
  keeps_artist r && keeps_lyrics r && keeps_album r && keeps_track r.

(** [series.str] is there for the column [col], if the table has it. *)
Definition is_text (col : option (forall T : Type, R T -> T)) (d : R dtype) : bool :=
  match col with
  | Some get => match get dtype d with
                | object => true
                | _ => false
                end
  | None => true
  end.

(** What each removal asks of the dtypes and of a row, in the order of
    [filter_steps]. *)
Definition filter_checks : list ((R dtype -> bool) * (R cell -> bool)) :=
  [(fun _ => true, keeps_artist);
   (is_text (col_lyrics cols), keeps_lyrics);
   (is_text (col_album_title cols), keeps_album);
   (is_text (col_track_title cols), keeps_track)].

End Filter.

(** *** The joins of process_data *)

Definition same_album (a : Albums.t cell) (t : Tracks.t cell) : bool :=
  cell_eqb (Albums.album_id a) (Tracks.album_id t).

Definition unmatched {A B} (p : A * option B) : bool :=
  match snd p with
  | None => true
  | Some _ => false
  end.

(** [album_df.merge(track_df, how='left', on='album_id')]; ValueError when
    one key column is text and the other numbers, unless exactly one of
    the tables has no rows.  The left columns keep their dtypes (the dtype
    of the key column of the result plays no part in what follows). *)
Definition merge_tracks (album_df : DataFrame Albums.t) (track_df : DataFrame Tracks.t)
    : result (DataFrame AlbumTracks.t) :=
  if keys_accepted (Albums.album_id (dtypes album_df)) (Tracks.album_id (dtypes track_df))
       (rows album_df) (rows track_df) then
    let joined := merge_left same_album (rows album_df) (rows track_df) in
    let hole := existsb unmatched joined in
    Ok (mkDF
          (AlbumTracks.mk (dtypes album_df)
             (with_holes hole (Tracks.track_id (dtypes track_df)))
             (with_holes hole (Tracks.track_title (dtypes track_df))))
          (map (fun p =>
                  match snd p with
                  | Some t => AlbumTracks.mk (fst p) (Tracks.track_id t) (Tracks.track_title t)
                  | None => AlbumTracks.mk (fst p) NaN NaN
                  end) joined))
  else Raise ValueError.

(** Lines 185-193: "Handle possible track_id type mismatch". *)
Definition reconcile (df_total : DataFrame AlbumTracks.t) (lyrics_df : DataFrame LyricsCsv.t)
    : DataFrame AlbumTracks.t * DataFrame LyricsCsv.t :=
  let dl := AlbumTracks.track_id (dtypes df_total) in
  let dr := LyricsCsv.track_id (dtypes lyrics_df) in
  if negb (dtype_eqb dl dr) then
    if is_numeric_dtype dl then
      (* lyrics_df['track_id'] = pd.to_numeric(lyrics_df['track_id'], errors='coerce') *)
      (df_total,
       mkDF (LyricsCsv.set_track_id
               (to_numeric_dtype dr (map LyricsCsv.track_id (rows lyrics_df)))
               (dtypes lyrics_df))
            (map (fun r => LyricsCsv.set_track_id (to_numeric_cell (LyricsCsv.track_id r)) r)
                 (rows lyrics_df)))
    else
      (* both: df['track_id'] = df['track_id'].astype(str) *)
      (mkDF (AlbumTracks.set_track_id object (dtypes df_total))
            (map (fun r => AlbumTracks.set_track_id (astype_str dl (AlbumTracks.track_id r)) r)
                 (rows df_total)),
       mkDF (LyricsCsv.set_track_id object (dtypes lyrics_df))
            (map (fun r => LyricsCsv.set_track_id (astype_str dr (LyricsCsv.track_id r)) r)
                 (rows lyrics_df)))
  else (df_total, lyrics_df).

Definition same_track (a : AlbumTracks.t cell) (l : LyricsCsv.t cell) : bool :=
  cell_eqb (AlbumTracks.track_id a) (LyricsCsv.track_id l).

(** [df_total.merge(lyrics_df, how='left', on='track_id')] *)
Definition merge_lyrics (df_total : DataFrame AlbumTracks.t) (lyrics_df : DataFrame LyricsCsv.t)
    : result (DataFrame Total.t) :=
  if keys_accepted (AlbumTracks.track_id (dtypes df_total))
       (LyricsCsv.track_id (dtypes lyrics_df)) (rows df_total) (rows lyrics_df) then
    let joined := merge_left same_track (rows df_total) (rows lyrics_df) in
    let hole := existsb unmatched joined in
    let d := dtypes df_total in
    Ok (mkDF
          (Total.mk (AlbumTracks.album d) (AlbumTracks.track_id d) (AlbumTracks.track_title d)
             (with_holes hole (LyricsCsv.duration (dtypes lyrics_df)))
             (with_holes hole (LyricsCsv.lyrics (dtypes lyrics_df))) None)
          (map (fun p =>
                  let a := fst p in
                  match snd p with
                  | Some l =>
                      Total.mk (AlbumTracks.album a) (AlbumTracks.track_id a)
                        (AlbumTracks.track_title a)
                        (LyricsCsv.duration l) (LyricsCsv.lyrics l) None
                  | None =>
                      Total.mk (AlbumTracks.album a) (AlbumTracks.track_id a)
                        (AlbumTracks.track_title a) NaN NaN None
                  end) joined))
  else Raise ValueError.

(** Lines 181-197 of process_data: the two joins and the step between
    them. *)
Definition merge_datasets (album_df : DataFrame Albums.t) (track_df : DataFrame Tracks.t)
    (lyrics_df : DataFrame LyricsCsv.t) : result (DataFrame Total.t) :=
  let? df_total := merge_tracks album_df track_df in
  let (df_total, lyrics_df) := reconcile df_total lyrics_df in
  merge_lyrics df_total lyrics_df.

(** The columns of [df_total] that [filter_data] finds. *)
Definition total_columns : FilterColumns Total.t :=
  mkFilterColumns Total.t
    (Some (fun T r => Total.artist_name r))
    (Some (fun T r => Total.lyrics r))
    (Some (fun T r => Total.album_title r))
    (Some (fun T r => Total.track_title r)).

(** *** clean_html_tags and process_data *)

(** A day of the calendar from its three numbers, when each was read. *)
Definition calendar_date (y m d : option Z) : option date :=
  match y, m, d with
  | Some y, Some m, Some d =>
      if ((1 <=? m) && (m <=? 12) && (1 <=? d) && (d <=? days_in_month y m))%Z
      then Some (mkDate y m d) else None
  | _, _, _ => None
  end.

(** The ISO calendar dates, in the exact form YYYY-MM-DD ([%Y-%m-%d]). *)
Definition iso_date (s : string) : option date :=
  match s with
  | String y1 (String y2 (String y3 (String y4 (String p (String m1 (String m2
      (String q (String d1 (String d2 EmptyString))))))))) =>
      if Ascii.eqb p "-" && Ascii.eqb q "-" then
        calendar_date (digits 0 (String y1 (String y2 (String y3 (String y4 EmptyString)))))
                      (digits 0 (String m1 (String m2 EmptyString)))
                      (digits 0 (String d1 (String d2 EmptyString)))
      else None
  | _ => None
  end.

(** The dates in the exact form MM/DD/YYYY ([%m/%d/%Y]). *)
Definition us_date (s : string) : option date :=
  match s with
  | String m1 (String m2 (String p (String d1 (String d2 (String q (String y1
      (String y2 (String y3 (String y4 EmptyString))))))))) =>
      if Ascii.eqb p "/" && Ascii.eqb q "/" then
        calendar_date (digits 0 (String y1 (String y2 (String y3 (String y4 EmptyString)))))
                      (digits 0 (String m1 (String m2 EmptyString)))
                      (digits 0 (String d1 (String d2 EmptyString)))
      else None
  | _ => None
  end.

(** The days a nanosecond timestamp can hold: 1677-09-22 to 2262-04-11. *)
Definition in_ns_bounds (d : date) : bool :=
  ((-106751 <=? days_from_epoch d) && (days_from_epoch d <=? 106751))%Z.

(** The texts [to_datetime] takes for a null. *)
Definition nat_strings : list string := ["NaT"; "nat"; "NAT"; "nan"; "NaN"; "NAN"].

Definition is_null_text (s : string) : bool :=
  String.eqb s "" || existsb (String.eqb s) nat_strings.

(** The first text of a column that is not a null: [to_datetime] guesses
    the format of the whole column from it. *)
Fixpoint first_non_null (column : list string) : option string :=
  match column with
  | [] => None
  | s :: rest => if is_null_text s then first_non_null rest else Some s
  end.

Inductive date_format := YMD | MDY.

Definition read_as (f : date_format) (s : string) : option date :=
  match f with
  | YMD => iso_date s
  | MDY => us_date s
  end.

(** The format guessed from the first text, for the two forms above and a
    date a timestamp can hold; every other first text is left to
    [other_formats] below. *)
Definition guess_datetime_format (first : string) : option date_format :=
  match iso_date first, us_date first with
  | Some d, _ => if in_ns_bounds d then Some YMD else None
  | None, Some d => if in_ns_bounds d then Some MDY else None
  | None, None => None
  end.

(** The two words [to_datetime] reads as the current time, whatever the
    format. *)
Definition now_or_today (s : string) : bool :=
  String.eqb s "now" || String.eqb s "today".

(** Texts that cannot be dates in format [f]: without any digit for
    [%Y-%m-%d], without any slash for [%m/%d/%Y]. *)
Definition cannot_match (f : date_format) (s : string) : bool :=
  negb (now_or_today s) &&
  match f with
  | YMD => negb (has_digit s)
  | MDY => negb (contains "/" s)
  end.

Section Dates.

(** What [to_datetime] gives where the model does not settle it: in a
    column whose first text is in neither of the two forms, and for a text
    that is neither in the exact form of the column's format nor excluded
    by [cannot_match].  It is given the whole column and the text. *)
Variable other_formats : list string -> string -> option date.

Definition to_datetime_other (column : list string) (s : string) : cell :=
  match other_formats column s with
  | Some d => Timestamp d
  | None => NaT
  end.

(** [pd.to_datetime(column, errors='coerce')] at the text [s] of a text
    column: one format is guessed from the first text that is not a null
    and every text of the column is read with it; with [errors='coerce'] a
    text that does not match gives NaT. *)
Definition to_datetime_text (column : list string) (s : string) : cell :=
  if is_null_text s then NaT
  else
    match option_map guess_datetime_format (first_non_null column) with
    | Some (Some f) =>
        match read_as f s with
        | Some d => if in_ns_bounds d then Timestamp d else to_datetime_other column s
        | None => if cannot_match f s then NaT else to_datetime_other column s
        end
    | _ => to_datetime_other column s
    end.

(** Lines 106-107 on one value of a [release_date] column of dtype [d]:
    the text handed to [to_datetime]. *)
Definition release_date_text (d : dtype) (c : cell) : string :=
  match astype_str d c with
  | Str s => unwrap "time" s
  | _ => ""
  end.

(** Lines 106-109 on one value of a [release_date] column of dtype [d]
    whose texts, after lines 106-107, are [column]. *)
Definition clean_release_date (column : list string) (d : dtype) (c : cell) : cell :=
  to_datetime_text column (release_date_text d c).

(** Lines 113-114 *)
Definition clean_type (d : dtype) (c : cell) : cell :=
  str_map (unwrap "span") (astype_str d c).

Definition ARTIST_SEP : string := NL ++ NL ++ CRLF.

(** Line 118 *)
Definition clean_artist_name (d : dtype) (c : cell) : cell :=
  str_map (split_first ARTIST_SEP) (astype_str d c).

(** Lines 123-124 *)
Definition clean_text (d : dtype) (c : cell) : cell :=
  str_map strip_ws (str_map (replace CRLF " ") (astype_str d c)).

(** Every column [clean_html_tags] asks for is in [df_total]. *)
Definition clean_html_tags (df : DataFrame Total.t) : DataFrame Total.t :=
  let d := dtypes df in
  let da := Total.album d in
  let release_dates :=
    map (fun r => release_date_text (Albums.release_date da)
                    (Albums.release_date (Total.album r))) (rows df) in
  mkDF
    (Total.mk
       (Albums.mk (Albums.album_id da) (Albums.album_title da) (Albums.artist_name da)
          datetime64 object (Albums.artist_id da) object object
          (Albums.distributor da) (Albums.agency da) (Albums.total_duration da)
          (Albums.thumbnail da))
       (Total.track_id d) object (Total.duration d) object (Some object))
    (map (fun r =>
            let a := Total.album r in
            Total.mk
              (Albums.mk (Albums.album_id a) (Albums.album_title a) (Albums.artist_name a)
                 (clean_release_date release_dates (Albums.release_date da)
                    (Albums.release_date a))
                 (clean_type (Albums.type da) (Albums.type a))
                 (Albums.artist_id a)
                 (clean_text (Albums.genre da) (Albums.genre a))
                 (clean_text (Albums.style da) (Albums.style a))
                 (Albums.distributor a) (Albums.agency a) (Albums.total_duration a)
                 (Albums.thumbnail a))
              (Total.track_id r)
              (clean_text (Total.track_title d) (Total.track_title r))
              (Total.duration r)
              (clean_text (Total.lyrics d) (Total.lyrics r))
              (Some (clean_artist_name (Albums.artist_name da) (Albums.artist_name a))))
         (rows df)).

(** [process_data]; its argument is the outcome of [load_data].  Any
    exception is logged and None returned. *)
Definition process_data
    (loaded : result (DataFrame Albums.t * DataFrame Tracks.t * DataFrame LyricsCsv.t))
    : option (DataFrame Total.t) :=
  match
    (let? data := loaded in
     let album_df := fst (fst data) in
     let track_df := snd (fst data) in
     let lyrics_df := snd data in
     let? track_df := clean_track_ids track_df in
     let? df_total := merge_datasets album_df track_df lyrics_df in
     let df_total := clean_html_tags df_total in
     filter_data total_columns df_total)
  with
  | Ok df_total => Some df_total
  | Raise _ => None
  end.

End Dates.

End KpopDataCleaner.

(* ===================================================================== *)
(** ** Sample pages and tables *)
(* ===================================================================== *)

Module Samples.
Import PyStr Soup Pandas.

Definition document (contents : list node) : node := Tag "[document]" [] [] contents.

Definition ok (soup : node) : response := mkResponse 200 soup.
Definition not_found : response := mkResponse 404 (document []).

(** The page of an album with one track, whose identifier is 90001. *)
Definition album_page_90001 : node :=
  document
    [Tag "p" ["title"] []
       [Tag "a" []
          [("onclick",
            "bugs.wiselog.area('list_tr_09_ab');bugs.music.listen('90001',true);")]
          [NavigableString "Song"]]].

Definition td (s : string) : node := Tag "td" [] [] [NavigableString s].

Definition thumbnail_block : node :=
  Tag "li" ["big"] [] [Tag "a" [] [] [Tag "img" [] [("src", "https://image/1.jpg")] []]].

(** An album page with the thumbnail and an info table of [cells]. *)
Definition album_page (cells : list string) : node :=
  document
    [thumbnail_block;
     Tag "table" ["info"] [] [Tag "tbody" [] [] (map td cells)]].

Definition eight_cells : list string :=
  ["IVE"; "EP"; "Dance"; "Idol"; "2023.04.10"; "Kakao"; "Starship"; "35:10"].

Definition seven_cells : list string :=
  ["IVE"; "EP"; "Dance"; "Idol"; "2023.04.10"; "Kakao"; "Starship"].

Definition album_block (album_id : string) (fields : list node) : node :=
  Tag "figure" ["albumInfo"] [("albumid", album_id)] fields.

Definition title_div (s : string) : node :=
  Tag "div" ["albumTitle"] [] [NavigableString s].

Definition artist_p (s : string) : node :=
  Tag "p" ["artist"] [] [NavigableString s].

(** An album block with neither release marker nor type marker. *)
Definition block_without_markers : node :=
  album_block "100" [title_div "I've IVE"; artist_p "IVE"].

(** An album block without its title. *)
Definition block_without_title : node :=
  album_block "101" [artist_p "IVE"; Tag "time" [] [] [NavigableString "2023.04.10"]].

Definition artist_url (artist_id : string) : string :=
  "https://music.bugs.co.kr/artist/" ++ artist_id ++ "/albums".

(** A site that answers every page with [soup]. *)
Definition serve (soup : node) (url : string) : response := ok soup.

(** A site on which the page of artist a1 is missing and every other page
    is empty. *)
Definition web_a1_missing (url : string) : response :=
  if String.eqb url (artist_url "a1") then not_found else ok (document []).

Definition album_url (album_id : string) : string :=
  "https://music.bugs.co.kr/album/" ++ album_id.

Definition track_url (track_id : string) : string :=
  "https://music.bugs.co.kr/track/" ++ track_id.

(** A site with one artist, a1, who has the album 100 and the soundtrack
    album 200; album 100 has one track, 31751848, with lyrics. *)
Definition albums_of_a1 : node :=
  document
    [album_block "100" [title_div "I've IVE"; artist_p "IVE"];
     album_block "200" [title_div "Drama OST"; artist_p "IVE"]].

Definition page_of_album_100 : node :=
  document
    [thumbnail_block;
     Tag "table" ["info"] [] [Tag "tbody" [] [] (map td eight_cells)];
     Tag "p" ["title"] []
       [Tag "a" []
          [("onclick",
            "bugs.wiselog.area('list_tr_09_ab');bugs.music.listen('31751848',true);")]
          [NavigableString "Kitsch"]]].

Definition page_of_track_31751848 : node :=
  document
    [Tag "time" [] [] [NavigableString "03:15"];
     Tag "div" ["lyricsContainer"] [] [Tag "xmp" [] [] [NavigableString "la la la"]]].

(** The same site when the page of album 100 is missing. *)
Definition web_a1_album_missing (url : string) : response :=
  if String.eqb url (artist_url "a1") then ok albums_of_a1 else not_found.

Definition web_a1 (url : string) : response :=
  if String.eqb url (artist_url "a1") then ok albums_of_a1
  else if String.eqb url (album_url "100") then ok page_of_album_100
  else if String.eqb url (track_url "31751848") then ok page_of_track_31751848
  else not_found.

(** A track table as [read_csv] loads it when one identifier is the
    login-wall text: the column is text. *)
Definition tracks_raw : DataFrame Tracks.t :=
  mkDF (Tracks.mk int64 object object)
    [Tracks.mk (Int 100) (Str "31751848") (Str "Kitsch");
     Tracks.mk (Int 100) (Str "howLoginLayer();") (Str "Locked")].

(** What [clean_track_ids] makes of it: the column is int64. *)
Definition tracks_clean : DataFrame Tracks.t :=
  mkDF (Tracks.mk int64 int64 object)
    [Tracks.mk (Int 100) (Int 31751848) (Str "Kitsch")].

Definition album_dtypes : Albums.t dtype :=
  Albums.mk int64 object object object object int64 object object object object
    object object.

Definition album_csv_row (album_id : Z) (title artist : string) : Albums.t cell :=
  Albums.mk (Int album_id) (Str title) (Str artist)
    (Str "<time>2023-04-10</time>") (Str "<span>EP</span>") (Int 1)
    (Str "Dance") (Str "Idol") (Str "Kakao") (Str "Starship") (Str "35:10")
    (Str "https://image/1.jpg").

Definition albums_csv : DataFrame Albums.t :=
  mkDF album_dtypes [album_csv_row 100 "I've IVE" "IVE"; album_csv_row 300 "Empty" "IVE"].

(** [albums_csv] joined with [tracks_clean]: album 300 has no track, so the
    identifier column has a hole and is float64. *)
Definition album_tracks : DataFrame AlbumTracks.t :=
  mkDF (AlbumTracks.mk album_dtypes float64 object)
    [AlbumTracks.mk (album_csv_row 100 "I've IVE" "IVE") (Int 31751848) (Str "Kitsch");
     AlbumTracks.mk (album_csv_row 300 "Empty" "IVE") NaN NaN].

(** A lyrics table one of whose identifiers is not a number. *)
Definition lyrics_csv : DataFrame LyricsCsv.t :=
  mkDF (LyricsCsv.mk object object object)
    [LyricsCsv.mk (Str "31751848") (Str "03:15") (Str "la la la");
     LyricsCsv.mk (Str "howLoginLayer();") (Str "00:00") (Str "not a song")].

(** A merged table for the filters. *)
Definition total_dtypes : Total.t dtype :=
  Total.mk album_dtypes int64 object object object (Some object).

Definition total_row (title artist track lyrics : string) : Total.t cell :=
  Total.mk (album_csv_row 100 title artist) (Int 1) (Str track) (Str "03:15") (Str lyrics)
    (Some (Str artist)).

Definition total_table : DataFrame Total.t :=
  mkDF total_dtypes
    [total_row "I've IVE" "IVE" "Kitsch" "la la la";
     total_row "Remix Edition" "IVE" "Kitsch" "la la la";
     total_row "I've IVE" "Various Artists" "Kitsch" "la la la";
     total_row "I've IVE" "IVE" "Kitsch (Japanese ver.)" "la la la";
     total_row "I've IVE" "IVE" "Intro" "nan"].

(** For the dates outside the two formats modelled: none is read. *)
Definition no_other_format (column : list string) (s : string) : option date := None.




(** An answer that is neither 200 nor an error of the 4xx/5xx ranges. *)
Definition no_content : response := mkResponse 204 (document []).

(** An album page with two title blocks, the second without its link. *)
Definition title_block (track_id title : string) : node :=
  Tag "p" ["title"] []
    [Tag "a" []
       [("onclick",
         "bugs.wiselog.area('list_tr_09_ab');bugs.music.listen('" ++ track_id ++ "',true);")]
       [NavigableString title]].

Definition page_with_broken_title : node :=
  document [title_block "31751848" "Kitsch";
            Tag "p" ["title"] [] [NavigableString "I AM"]].

End Samples.

(* ===================================================================== *)
(** * Properties of the scraper *)
(* ===================================================================== *)

Section ScraperFacts.
Import PyStr Soup BugsMusicScraper Samples.

(** Inversion of a chain of [let?]: the head returned, or the chain raised. *)
Ltac rinv H :=
  repeat match type of H with
         | rbind ?r _ = _ =>
             let E := fresh "E" in
             destruct r eqn:E; cbn [rbind] in H; [ | discriminate H ]
         | Ok _ = Ok _ => injection H as H
         | Raise _ = Ok _ => discriminate H
         end.

(** *** The track identifier *)

(** Every character of the prefix belongs to the set [lstrip] removes, so
    the prefix itself always goes. *)
Lemma lstrip_listen_prefix (rest : string) :
  lstrip LISTEN_PREFIX (LISTEN_PREFIX ++ rest) = lstrip LISTEN_PREFIX rest.
Proof. reflexivity. Qed.

(** When the identifier starts with a character outside the set, the code
    yields the characters between the prefix and the next quote. *)
Lemma track_id_of_onclick_exact (c : ascii) (rest : string) :
  mem c LISTEN_PREFIX = false ->
  track_id_of_onclick (LISTEN_PREFIX ++ String c rest) = split_head "'" (String c rest).
Proof.
  intros Hc. unfold track_id_of_onclick.
  rewrite lstrip_listen_prefix. cbn [lstrip]. rewrite Hc. reflexivity.
Qed.

(** The digits 1 to 8 are outside the set. *)
Lemma track_id_of_onclick_31751848 :
  track_id_of_onclick
    "bugs.wiselog.area('list_tr_09_ab');bugs.music.listen('31751848',true);"
  = "31751848".
Proof. reflexivity. Qed.

(** C4 (code at the failing input): the set given to [lstrip] contains the
    digits 0 and 9 (from 'list_tr_09_ab'), so on the onclick value that
    plays track 90001 the code returns the identifier "1", where removing
    the fixed prefix and reading up to the quote gives "90001". *)
Theorem track_id_of_onclick_drops_leading_9_and_0 :
  let onclick :=
    "bugs.wiselog.area('list_tr_09_ab');bugs.music.listen('90001',true);" in
  track_id_of_onclick onclick = "1"
  /\ split_head "'" (removeprefix LISTEN_PREFIX onclick) = "90001"
  /\ tracks_of_soup "555" album_page_90001 = Ok [Track.mk "555" "1" "Song"].
Proof. repeat split; reflexivity. Qed.

(** *** Album details *)

Lemma get_soup_result (web : string -> response) (url : string) :
  fst (_get_soup web url) =
  if fetch_fails (web url) then Raise HTTPError else Ok (html (web url)).
Proof.
  unfold _get_soup, fetch_fails, raise_for_status, bind, emit, ret, raise.
  destruct (status_code (web url) =? 200)%Z; cbn; [reflexivity|].
  destruct (400 <=? status_code (web url))%Z; cbn; [|reflexivity].
  destruct (status_code (web url) <? 600)%Z; reflexivity.
Qed.

Lemma get_soup_first_event (web : string -> response) (url : string) :
  exists rest, snd (_get_soup web url) = Get url :: rest
               /\ forall u, ~ In (Get u) rest.
Proof.
  unfold _get_soup, raise_for_status, bind, emit, ret, raise.
  destruct (status_code (web url) =? 200)%Z; cbn.
  - exists []. split; [reflexivity | intros u []].
  - destruct ((400 <=? status_code (web url)) && (status_code (web url) <? 600))%Z; cbn;
      eexists; (split; [reflexivity|]); intros u [H|[]]; discriminate H.
Qed.

(** What [get_album_details] returns: it never raises. *)
Lemma get_album_details_result (web : string -> response) (album_id : string) :
  let r := web (BASE_URL ++ "/album/" ++ album_id) in
  fst (get_album_details web album_id) =
  Ok (if fetch_fails r then None
      else match details_of_soup album_id (html r) with
           | Ok d => Some d
           | Raise _ => None
           end).
Proof.
  intros r. unfold get_album_details, try_except, bind at 1.
  pose proof (get_soup_result web (BASE_URL ++ "/album/" ++ album_id)) as Hs.
  fold r in Hs.
  destruct (_get_soup web (BASE_URL ++ "/album/" ++ album_id)) as [res tr].
  cbn [fst] in Hs. subst res.
  destruct (fetch_fails r); [reflexivity|].
  unfold lift, bind, ret.
  destruct (details_of_soup album_id (html r)); reflexivity.
Qed.

(** A failure is reported with the album it concerns. *)
Lemma get_album_details_reports (web : string -> response) (album_id : string) :
  fst (get_album_details web album_id) = Ok None ->
  In (LogError ("Failed to get details for album " ++ album_id))
     (snd (get_album_details web album_id)).
Proof.
  unfold get_album_details, try_except, bind at 1.
  destruct (_get_soup web (BASE_URL ++ "/album/" ++ album_id)) as [[soup|e] tr].
  - unfold lift, bind, ret, emit.
    destruct (details_of_soup album_id soup); cbn [fst snd].
    + discriminate.
    + intros _. apply in_or_app. right. left. reflexivity.
  - cbn. intros _. apply in_or_app. right. left. reflexivity.
Qed.

Lemma index_short (l : list string) (i : nat) :
  (length l <= i)%nat -> index l i = Raise IndexError.
Proof.
  intros H. unfold index. rewrite (proj2 (nth_error_None l i) H). reflexivity.
Qed.

Lemma index_ok (l : list string) (i : nat) (x : string) :
  index l i = Ok x -> nth_error l i = Some x.
Proof.
  unfold index. destruct (nth_error l i); intros H; [injection H as ->; reflexivity | discriminate].
Qed.

(** The record is read off the fixed positions of the cell sequence. *)
Lemma details_of_soup_positions (album_id : string) (soup : node) (d : AlbumDetail.t) :
  details_of_soup album_id soup = Ok d ->
  exists cells,
    info_cells soup = Ok cells
    /\ thumbnail_of_soup soup = Ok (AlbumDetail.thumbnail d)
    /\ AlbumDetail.album_id d = album_id
    /\ nth_error cells 2 = Some (AlbumDetail.genre d)
    /\ nth_error cells 3 = Some (AlbumDetail.style d)
    /\ nth_error cells 5 = Some (AlbumDetail.distributor d)
    /\ nth_error cells 6 = Some (AlbumDetail.agency d)
    /\ nth_error cells 7 = Some (AlbumDetail.total_duration d).
Proof.
  unfold details_of_soup. intros H. rinv H. subst d. cbn [AlbumDetail.thumbnail
    AlbumDetail.album_id AlbumDetail.genre AlbumDetail.style AlbumDetail.distributor
    AlbumDetail.agency AlbumDetail.total_duration].
  eexists. split; [reflexivity|].
  repeat split; auto using index_ok.
Qed.

(** The ways a page fails to give the record. *)
Lemma details_of_soup_fails (album_id : string) (soup : node) :
  (exists e, thumbnail_of_soup soup = Raise e)
  \/ (exists e, info_cells soup = Raise e)
  \/ (exists cells, info_cells soup = Ok cells /\ (length cells < 8)%nat) ->
  exists e, details_of_soup album_id soup = Raise e.
Proof.
  unfold details_of_soup.
  intros [[e H] | [[e H] | [cells [H Hlen]]]].
  - rewrite H. eexists; reflexivity.
  - destruct (thumbnail_of_soup soup); [|eexists; reflexivity].
    rewrite H. eexists; reflexivity.
  - destruct (thumbnail_of_soup soup); [|eexists; reflexivity].
    rewrite H. cbn [rbind].
    destruct (index cells 2); [|eexists; reflexivity]. cbn [rbind].
    destruct (index cells 3); [|eexists; reflexivity]. cbn [rbind].
    destruct (index cells 5); [|eexists; reflexivity]. cbn [rbind].
    destruct (index cells 6); [|eexists; reflexivity]. cbn [rbind].
    rewrite index_short by lia. eexists; reflexivity.
Qed.

(** No thumbnail block, no record. *)
Lemma thumbnail_missing (soup : node) :
  find "li" (Some "big") soup = None -> thumbnail_of_soup soup = Raise AttributeError.
Proof. unfold thumbnail_of_soup. intros ->. reflexivity. Qed.

(** An info table without a body breaks the cell sequence. *)
Lemma info_cells_no_tbody (soup : node) (table : node) (rest : list node) :
  find_all "table" (Some "info") soup = table :: rest ->
  find "tbody" None table = None ->
  info_cells soup = Raise AttributeError.
Proof. unfold info_cells. intros -> H. cbn. rewrite H. reflexivity. Qed.

(** C9: [get_album_details] never raises.  On a fetched page with its
    thumbnail and at least eight cells in the info-table cell sequence it
    returns a record, made of the identifier asked for, the thumbnail and
    the cells at positions 2, 3, 5, 6 and 7 as genre, style, distributor,
    agency and total_duration; whenever it returns a record, these five
    fields are the cells at those positions.  When the fetch fails, the
    thumbnail is missing, the tables do not have the expected shape or
    there are fewer than eight cells, it returns None and logs the failure
    for that album. *)
Theorem get_album_details_positions_or_none (web : string -> response) (album_id : string) :
  let r := web (BASE_URL ++ "/album/" ++ album_id) in
  (exists o, fst (get_album_details web album_id) = Ok o)
  /\ (forall th cells,
        fetch_fails r = false ->
        thumbnail_of_soup (html r) = Ok th ->
        info_cells (html r) = Ok cells ->
        (8 <= length cells)%nat ->
        exists genre style distributor agency total_duration,
          nth_error cells 2 = Some genre
          /\ nth_error cells 3 = Some style
          /\ nth_error cells 5 = Some distributor
          /\ nth_error cells 6 = Some agency
          /\ nth_error cells 7 = Some total_duration
          /\ fst (get_album_details web album_id)
             = Ok (Some (AlbumDetail.mk album_id genre style distributor agency
                           total_duration th)))
  /\ (forall d, fst (get_album_details web album_id) = Ok (Some d) ->
       exists cells,
         info_cells (html r) = Ok cells
         /\ nth_error cells 2 = Some (AlbumDetail.genre d)
         /\ nth_error cells 3 = Some (AlbumDetail.style d)
         /\ nth_error cells 5 = Some (AlbumDetail.distributor d)
         /\ nth_error cells 6 = Some (AlbumDetail.agency d)
         /\ nth_error cells 7 = Some (AlbumDetail.total_duration d))
  /\ (fetch_fails r = true
      \/ find "li" (Some "big") (html r) = None
      \/ (exists e, thumbnail_of_soup (html r) = Raise e)
      \/ (exists e, info_cells (html r) = Raise e)
      \/ (exists cells, info_cells (html r) = Ok cells /\ (length cells < 8)%nat) ->
      fst (get_album_details web album_id) = Ok None
      /\ In (LogError ("Failed to get details for album " ++ album_id))
            (snd (get_album_details web album_id))).
Proof.
  intros r.
  pose proof (get_album_details_result web album_id) as Hres. cbv zeta in Hres. fold r in Hres.
  split; [eexists; exact Hres|]. split; [|split].
  - intros th cells Hf Hth Hcells Hlen.
    destruct cells as [|c0 [|c1 [|c2 [|c3 [|c4 [|c5 [|c6 [|c7 rest]]]]]]]];
      cbn [length] in Hlen; try lia.
    exists c2, c3, c5, c6, c7. repeat (split; [reflexivity|]).
    rewrite Hres, Hf. unfold details_of_soup. rewrite Hth, Hcells. reflexivity.
  - intros d Hd. rewrite Hres in Hd.
    destruct (fetch_fails r); [discriminate|].
    destruct (details_of_soup album_id (html r)) eqn:E; [|discriminate].
    injection Hd as ->.
    destruct (details_of_soup_positions _ _ _ E) as (cells & Hc & _ & _ & H2 & H3 & H5 & H6 & H7).
    exists cells. auto 10.
  - intros Hfail.
    assert (Hnone : fst (get_album_details web album_id) = Ok None).
    { rewrite Hres. destruct (fetch_fails r) eqn:Ef; [reflexivity|].
      assert (Hd : exists e, details_of_soup album_id (html r) = Raise e).
      { apply details_of_soup_fails.
        destruct Hfail as [H | [H | [H | [H | H]]]]; auto.
        - discriminate.
        - left. eexists. apply thumbnail_missing, H. }
      destruct Hd as [e ->]. reflexivity. }
    split; [exact Hnone | apply get_album_details_reports, Hnone].
Qed.

Lemma get_album_details_positions_or_none_witness :
  fst (get_album_details (serve (album_page eight_cells)) "1")
  = Ok (Some (AlbumDetail.mk "1" "Dance" "Idol" "Kakao" "Starship" "35:10"
                "https://image/1.jpg"))
  /\ (fst (get_album_details (serve (album_page seven_cells)) "1") = Ok None
      /\ In (LogError "Failed to get details for album 1")
            (snd (get_album_details (serve (album_page seven_cells)) "1"))).
Proof.
  split.
  - destruct (proj1 (proj2 (get_album_details_positions_or_none
                              (serve (album_page eight_cells)) "1"))
                "https://image/1.jpg" eight_cells eq_refl eq_refl eq_refl)
      as (genre & style & distributor & agency & total_duration
          & H2 & H3 & H5 & H6 & H7 & Hd).
    + cbn. lia.
    + cbn in H2, H3, H5, H6, H7.
      injection H2 as <-. injection H3 as <-. injection H5 as <-.
      injection H6 as <-. injection H7 as <-. exact Hd.
  - apply (proj2 (proj2 (proj2 (get_album_details_positions_or_none
                                  (serve (album_page seven_cells)) "1")))).
    right. right. right. right.
    exists seven_cells. split; [reflexivity | cbn; lia].
Defined.

(** *** The album list *)

Lemma get_artist_albums_result (web : string -> response) (artist_id : string) :
  let r := web (BASE_URL ++ "/artist/" ++ artist_id ++ "/albums") in
  fst (get_artist_albums web artist_id) =
  if fetch_fails r then Raise HTTPError else albums_of_soup artist_id (html r).
Proof.
  intros r. unfold get_artist_albums, bind.
  pose proof (get_soup_result web (BASE_URL ++ "/artist/" ++ artist_id ++ "/albums")) as Hs.
  fold r in Hs.
  destruct (_get_soup web (BASE_URL ++ "/artist/" ++ artist_id ++ "/albums")) as [res tr].
  cbn [fst] in Hs. subst res.
  destruct (fetch_fails r); [reflexivity|].
  unfold lift. reflexivity.
Qed.

(** C2 (counterexample): on a page whose album block has no title element,
    [get_artist_albums] raises AttributeError instead of storing a
    placeholder. *)
Lemma get_artist_albums_raises_without_title :
  get_artist_albums (serve (document [block_without_title])) "a1"
  = (Raise AttributeError, [Get (artist_url "a1")]).
Proof. reflexivity. Qed.

(** C2 (amended): when the page is fetched and every album block has its
    albumid attribute, its title element and its artist element,
    [get_artist_albums] returns one row per block, whose album_id is the
    value of that attribute and whose release_date and type are the marker
    elements found in the block, None standing for a missing one. *)
Theorem get_artist_albums_placeholders (web : string -> response) (artist_id : string) :
  let r := web (BASE_URL ++ "/artist/" ++ artist_id ++ "/albums") in
  let blocks := find_all "figure" (Some "albumInfo") (html r) in
  fetch_fails r = false ->
  Forall (fun b => (exists id, getitem (Some b) "albumid" = Ok id)
                   /\ find "div" (Some "albumTitle") b <> None
                   /\ find "p" (Some "artist") b <> None) blocks ->
  exists rows,
    fst (get_artist_albums web artist_id) = Ok rows
    /\ Forall2 (fun b row =>
                  getitem (Some b) "albumid" = Ok (AlbumSummary.album_id row)
                  /\ AlbumSummary.release_date row = find "time" None b
                  /\ AlbumSummary.type row = find "span" (Some "albumType") b
                  /\ AlbumSummary.artist_id row = artist_id) blocks rows.
Proof.
  intros r blocks Hfetch Hblocks.
  rewrite get_artist_albums_result. fold r. rewrite Hfetch.
  unfold albums_of_soup. fold blocks.
  induction Hblocks as [|b bs [[id Hid] [Ht Ha]] _ IH].
  - exists []. split; [reflexivity | constructor].
  - destruct IH as (rows & Hrows & Hall).
    cbn [rmap]. unfold album_row at 1. rewrite Hid. cbn [rbind].
    destruct (find "div" (Some "albumTitle") b) as [t|]; [|contradiction].
    destruct (find "p" (Some "artist") b) as [a|]; [|contradiction].
    cbn [dot_text rbind]. rewrite Hrows. cbn [rbind].
    eexists. split; [reflexivity|].
    constructor; [|exact Hall]. cbn. auto.
Qed.

Lemma get_artist_albums_placeholders_witness :
  exists row,
    fst (get_artist_albums (serve (document [block_without_markers])) "a1") = Ok [row]
    /\ AlbumSummary.album_id row = "100"
    /\ AlbumSummary.release_date row = None
    /\ AlbumSummary.type row = None.
Proof.
  destruct (get_artist_albums_placeholders (serve (document [block_without_markers])) "a1")
    as (rows & Hrows & Hall).
  - reflexivity.
  - repeat constructor; try (eexists; reflexivity); discriminate.
  - inversion Hall as [|b row bs rows' (Hid & Hdate & Htype & _) Hrest]; subst.
    inversion Hrest; subst.
    exists row. split; [exact Hrows|].
    injection Hid as <-. rewrite Hdate, Htype. repeat split; reflexivity.
Defined.

(** *** Fetch failures *)

(** The three later stages swallow every exception of their bodies. *)
Lemma get_album_tracks_never_raises (web : string -> response) (album_id : string) :
  exists o, fst (get_album_tracks web album_id) = Ok o.
Proof.
  unfold get_album_tracks, try_except, bind at 1.
  destruct (_get_soup web (BASE_URL ++ "/album/" ++ album_id)) as [[soup|e] tr].
  - unfold lift, bind, ret.
    destruct (tracks_of_soup album_id soup); eexists; reflexivity.
  - eexists; reflexivity.
Qed.

Lemma get_track_lyrics_never_raises (web : string -> response) (track_id : string) :
  exists o, fst (get_track_lyrics web track_id) = Ok o.
Proof.
  unfold get_track_lyrics, try_except, bind at 1.
  destruct (_get_soup web (BASE_URL ++ "/track/" ++ track_id)) as [[soup|e] tr].
  - unfold lift, bind, ret.
    destruct (lyrics_of_soup track_id soup); eexists; reflexivity.
  - eexists; reflexivity.
Qed.

(** When no artist page lists any album, the album table has no rows and
    [main] stops on the AttributeError of line 213, after the artist
    pages. *)
Lemma main_aborts_without_albums :
  main (serve (document [])) (Ok ["a1"; "a2"])
  = (Raise AttributeError, [Get (artist_url "a1"); Get (artist_url "a2")]).
Proof. reflexivity. Qed.

(** When the detail pages of all the albums kept fail, the failures are
    skipped one by one, but there is then nothing to concatenate and [main]
    stops on the ValueError of [pd.concat]. *)
Lemma main_aborts_when_no_detail_is_left :
  fst (main web_a1_album_missing (Ok ["a1"])) = Raise ValueError.
Proof. reflexivity. Qed.

(** C3 (code at the failing input): with artists a1 and a2, when the page
    of a1 answers 404, [main] raises HTTPError after that one request: a2
    is never processed and nothing is written. *)
Theorem main_aborts_on_artist_fetch_failure :
  main web_a1_missing (Ok ["a1"; "a2"])
  = (Raise HTTPError,
     [Get (artist_url "a1"); LogWarning ("Failed to get " ++ artist_url "a1")]).
Proof. reflexivity. Qed.

(** *** What a run requests *)

Lemma bind_result {A B} (m : M A) (k : A -> M B) :
  fst (bind m k) = match fst m with
                   | Ok a => fst (k a)
                   | Raise e => Raise e
                   end.
Proof.
  destruct m as [[a|e] t]; cbn; [|reflexivity].
  destruct (k a); reflexivity.
Qed.

Lemma bind_trace {A B} (m : M A) (k : A -> M B) :
  snd (bind m k) = match fst m with
                   | Ok a => (snd m ++ snd (k a))%list
                   | Raise _ => snd m
                   end.
Proof.
  destruct m as [[a|e] t]; cbn; [|reflexivity].
  destruct (k a); reflexivity.
Qed.

(** An event of [m ;; k] comes from [m], or from [k] on what [m] returned. *)
Lemma in_bind_trace {A B} (m : M A) (k : A -> M B) (e : event) :
  In e (snd (bind m k)) ->
  In e (snd m) \/ exists a, fst m = Ok a /\ In e (snd (k a)).
Proof.
  rewrite bind_trace. destruct (fst m) as [a|x] eqn:E; [|auto].
  intros H. apply in_app_or in H. destruct H; eauto.
Qed.

Lemma bind_ok {A B} (m : M A) (k : A -> M B) (b : B) :
  fst (bind m k) = Ok b -> exists a, fst m = Ok a /\ fst (k a) = Ok b.
Proof.
  rewrite bind_result. destruct (fst m) as [a|x]; [eauto | discriminate].
Qed.

(** The events of a loop are those of its iterations. *)
Lemma collect_trace {A B} (f : A -> M (option B)) (l : list A) (e : event) :
  In e (snd (collect f l)) -> exists x, In x l /\ In e (snd (f x)).
Proof.
  induction l as [|x t IH]; cbn [collect].
  - intros [].
  - intros H. apply in_bind_trace in H. destruct H as [H | (y & _ & H)].
    + exists x. split; [left; reflexivity | exact H].
    + apply in_bind_trace in H. destruct H as [H | (ys & _ & [])].
      destruct (IH H) as (x' & Hx & He). exists x'. split; [right; exact Hx | exact He].
Qed.

Lemma for_each_trace {A B} (f : A -> M B) (l : list A) (e : event) :
  In e (snd (for_each f l)) -> exists x, In x l /\ In e (snd (f x)).
Proof.
  induction l as [|x t IH]; cbn [for_each].
  - intros [].
  - intros H. apply in_bind_trace in H. destruct H as [H | (y & _ & H)].
    + exists x. split; [left; reflexivity | exact H].
    + apply in_bind_trace in H. destruct H as [H | (ys & _ & [])].
      destruct (IH H) as (x' & Hx & He). exists x'. split; [right; exact Hx | exact He].
Qed.

(** What a loop collected was returned by one of its iterations. *)
Lemma collect_ok {A B} (f : A -> M (option B)) (l : list A) (ys : list B) (y : B) :
  fst (collect f l) = Ok ys -> In y ys -> exists x, In x l /\ fst (f x) = Ok (Some y).
Proof.
  revert ys. induction l as [|x t IH]; cbn [collect]; intros ys H Hy.
  - injection H as <-. destruct Hy.
  - apply bind_ok in H. destruct H as (o & Ho & H).
    apply bind_ok in H. destruct H as (ys' & Hys & H).
    injection H as <-.
    destruct o as [b|].
    + destruct Hy as [<- | Hy].
      * exists x. split; [left; reflexivity | exact Ho].
      * destruct (IH ys' Hys Hy) as (x' & Hx & Hf). exists x'. auto using in_cons.
    + destruct (IH ys' Hys Hy) as (x' & Hx & Hf). exists x'. auto using in_cons.
Qed.

Lemma pd_concat_in {A} (frames : list (list A)) (l : list A) (x : A) :
  pd_concat frames = Ok l -> In x l -> exists f, In f frames /\ In x f.
Proof.
  unfold pd_concat. destruct frames as [|f fs]; [discriminate|].
  intros H. injection H as <-. intros Hx.
  change (In x (concat (f :: fs))) in Hx.
  apply in_concat in Hx. destruct Hx as (g & Hg & Hx). eauto.
Qed.

Lemma pd_concat_rows_in {A} (rows l : list A) (x : A) :
  pd_concat (map (fun d => [d]) rows) = Ok l -> In x l -> In x rows.
Proof.
  intros H Hx. destruct (pd_concat_in _ _ _ H Hx) as (f & Hf & Hxf).
  apply in_map_iff in Hf. destruct Hf as (d & <- & Hd).
  destruct Hxf as [<- | []]. exact Hd.
Qed.

Lemma merge_left_in {A B} (k : A -> B -> bool) (l : list A) (r : list B) (p : A * option B) :
  In p (merge_left k l r) ->
  In (fst p) l /\ match snd p with
                  | Some b => In b r /\ k (fst p) b = true
                  | None => forall b, In b r -> k (fst p) b = false
                  end.
Proof.
  unfold merge_left. intros H. apply in_flat_map in H. destruct H as (a & Ha & H).
  destruct (filter (k a) r) as [|m ms] eqn:E.
  - destruct H as [<- | []]. cbn. split; [exact Ha|].
    intros b Hb. destruct (k a b) eqn:Ek; [|reflexivity].
    assert (Hin : In b (filter (k a) r)) by (apply filter_In; auto).
    rewrite E in Hin. destruct Hin.
  - apply in_map_iff in H. destruct H as (b & <- & Hb). cbn. split; [exact Ha|].
    rewrite <- E in Hb. apply filter_In in Hb. exact Hb.
Qed.

Lemma drop_duplicates_from_in {A} (same : A -> A -> bool) (seen l : list A) (x : A) :
  In x (drop_duplicates_from same seen l) -> In x l.
Proof.
  revert seen. induction l as [|y t IH]; cbn; intros seen H; [exact H|].
  destruct (existsb (same y) seen).
  - right. eapply IH, H.
  - destruct H as [H | H]; [left; exact H | right; eapply IH, H].
Qed.

Lemma clean_albums_spec (l : list AlbumSummary.t) (r : AlbumSummary.t) :
  In r (clean_albums l) <-> In r l /\ excluded r = false.
Proof.
  unfold clean_albums, excluded. rewrite !filter_In, !negb_true_iff, !orb_false_iff.
  tauto.
Qed.

(** The only page an extractor of the later stages requests is that of its
    identifier, and what it returns was read from that page. *)
Lemma guarded_fetch_trace {B} (web : string -> response) (url msg : string)
    (k : node -> result B) (u : string) :
  In (Get u)
     (snd (try_except
             (soup <- _get_soup web url ;; df <- lift (k soup) ;; ret (Some df))
             (fun _ => emit (LogError msg) ;; ret None))) ->
  u = url.
Proof.
  destruct (get_soup_first_event web url) as (rest & Hrest & Hno).
  unfold try_except, bind at 1.
  destruct (_get_soup web url) as [[soup|e] tr]; cbn [snd] in Hrest; subst tr.
  - unfold lift, bind, ret, emit. destruct (k soup); cbn.
    + rewrite app_nil_r. intros [H | H]; [congruence | elim (Hno u H)].
    + rewrite app_nil_r. intros [H | H]; [congruence|].
      apply in_app_or in H. destruct H as [H | [H | []]]; [elim (Hno u H) | discriminate].
  - cbn. intros [H | H]; [congruence|].
    apply in_app_or in H. destruct H as [H | [H | []]]; [elim (Hno u H) | discriminate].
Qed.

Lemma guarded_fetch_ok {B} (web : string -> response) (url msg : string)
    (k : node -> result B) (b : B) :
  fst (try_except
         (soup <- _get_soup web url ;; df <- lift (k soup) ;; ret (Some df))
         (fun _ => emit (LogError msg) ;; ret None)) = Ok (Some b) ->
  k (html (web url)) = Ok b.
Proof.
  pose proof (get_soup_result web url) as Hs.
  unfold try_except, bind at 1.
  destruct (_get_soup web url) as [res tr]. cbn [fst] in Hs. subst res.
  destruct (fetch_fails (web url)); [discriminate|].
  unfold lift, bind, ret. destruct (k (html (web url))); cbn; congruence.
Qed.

Lemma tracks_of_soup_album (album_id : string) (soup : node) (ts : list Track.t) (t : Track.t) :
  tracks_of_soup album_id soup = Ok ts -> In t ts -> Track.album_id t = album_id.
Proof.
  unfold tracks_of_soup. generalize (find_all "p" (Some "title") soup) as elems.
  intros elems. revert ts. induction elems as [|el els IH]; cbn [rmap]; intros ts H Ht.
  - injection H as <-. destruct Ht.
  - rinv H. subst ts. destruct Ht as [<- | Ht]; [|eauto].
    unfold track_row in E. rinv E. subst a. reflexivity.
Qed.

Lemma lyrics_of_soup_track (track_id : string) (soup : node) (l : Lyrics.t) :
  lyrics_of_soup track_id soup = Ok l -> Lyrics.track_id l = track_id.
Proof. unfold lyrics_of_soup. intros H. rinv H. subst l. reflexivity. Qed.

Lemma album_final_in (album_clean : list AlbumSummary.t) (album_detail_df : list AlbumDetail.t)
    (x : AlbumFinal.t) :
  In x (drop_duplicates same_id_title (merge_left same_album_id album_clean album_detail_df)) ->
  In (fst x) album_clean.
Proof.
  intros H. apply drop_duplicates_from_in in H. apply merge_left_in in H. apply H.
Qed.

Lemma get_artist_albums_trace (web : string -> response) (artist_id u : string) :
  In (Get u) (snd (get_artist_albums web artist_id)) ->
  u = BASE_URL ++ "/artist/" ++ artist_id ++ "/albums".
Proof.
  unfold get_artist_albums. intros H. apply in_bind_trace in H.
  destruct H as [H | (soup & _ & [])].
  destruct (get_soup_first_event web (BASE_URL ++ "/artist/" ++ artist_id ++ "/albums"))
    as (rest & Hrest & Hno).
  rewrite Hrest in H. destruct H as [H | H]; [congruence | elim (Hno u H)].
Qed.

(** C10: in every run of [main], whether it completes or not, each page
    requested is the album list of a listed artist, the page of an album
    row that none of the four selections removes ('권리없는', ' OST' and
    '일본' in the title, 'Various Artists' in the artist name, all matched
    with case), or the page of a track listed on the page of such an album;
    and in the tables a completed run writes, no album row is an excluded
    one, every track row belongs to a written album and every lyrics row to
    a written track. *)
Theorem main_skips_excluded_albums (web : string -> response) (artist_id_list : list string) :
  let run := main web (Ok artist_id_list) in
  (forall url, In (Get url) (snd run) ->
     (exists a, In a artist_id_list /\ url = BASE_URL ++ "/artist/" ++ a ++ "/albums")
     \/ exists album_df_total r,
          fst (collect_albums web artist_id_list) = Ok album_df_total
          /\ In r album_df_total /\ excluded r = false
          /\ (url = BASE_URL ++ "/album/" ++ AlbumSummary.album_id r
              \/ exists ts t,
                   tracks_of_soup (AlbumSummary.album_id r)
                     (html (web (BASE_URL ++ "/album/" ++ AlbumSummary.album_id r))) = Ok ts
                   /\ In t ts
                   /\ url = BASE_URL ++ "/track/" ++ Track.track_id t))
  /\ (forall out, fst run = Ok (Some out) ->
       (forall r, In r (kpop_girl_group_albums out) -> excluded (fst r) = false)
       /\ (forall t, In t (kpop_girl_group_tracks out) ->
             exists r, In r (kpop_girl_group_albums out)
                       /\ AlbumFinal.album_id r = Track.album_id t)
       /\ (forall l, In l (kpop_girl_group_lyrics out) ->
             exists t, In t (kpop_girl_group_tracks out)
                       /\ Track.track_id t = Lyrics.track_id l)).
Proof.
  intros run. subst run. unfold main. split.
  - intros url H.
    apply in_bind_trace in H. destruct H as [H | (all & Hall & H)].
    { left. unfold collect_albums in H. apply in_bind_trace in H.
      destruct H as [H | (dfs & _ & [])].
      apply for_each_trace in H. destruct H as (a & Ha & H).
      exists a. split; [exact Ha | apply (get_artist_albums_trace web), H]. }
    right. exists all. cbv zeta in H.
    apply in_bind_trace in H. destruct H as [[] | (text_columns & _ & H)].
    apply in_bind_trace in H. destruct H as [H | (details & _ & H)].
    { apply collect_trace in H. destruct H as (id & Hid & H).
      apply in_map_iff in Hid. destruct Hid as (r & <- & Hr).
      apply clean_albums_spec in Hr. destruct Hr as [Hr Hex].
      exists r. repeat split; auto. left.
      unfold get_album_details in H. apply guarded_fetch_trace in H. exact H. }
    apply in_bind_trace in H. destruct H as [[] | (detail_df & _ & H)].
    apply in_bind_trace in H. destruct H as [H | (album_tracks & Htracks & H)].
    { apply collect_trace in H. destruct H as (id & Hid & H).
      apply in_map_iff in Hid. destruct Hid as (x & <- & Hx).
      apply album_final_in, clean_albums_spec in Hx. destruct Hx as [Hr Hex].
      exists (fst x). repeat split; auto. left.
      unfold get_album_tracks in H. apply guarded_fetch_trace in H. exact H. }
    apply in_bind_trace in H. destruct H as [[] | (track_df & Htdf & H)].
    apply in_bind_trace in H. destruct H as [H | (lyrics_dfs & _ & H)].
    { apply collect_trace in H. destruct H as (tid & Htid & H).
      apply in_map_iff in Htid. destruct Htid as (t & <- & Ht).
      destruct (pd_concat_in _ _ _ Htdf Ht) as (ts & Hts & Htts).
      destruct (collect_ok _ _ _ _ Htracks Hts) as (id & Hid & Hget).
      apply in_map_iff in Hid. destruct Hid as (x & <- & Hx).
      apply album_final_in, clean_albums_spec in Hx. destruct Hx as [Hr Hex].
      exists (fst x). repeat split; auto. right. exists ts, t.
      unfold get_album_tracks in Hget. apply guarded_fetch_ok in Hget.
      unfold get_track_lyrics in H. apply guarded_fetch_trace in H. auto. }
    apply in_bind_trace in H. destruct H as [[] | (lyrics_df & _ & [])].
  - intros out H.
    apply bind_ok in H. destruct H as (all & _ & H). cbv zeta in H.
    apply bind_ok in H. destruct H as (text_columns & _ & H).
    apply bind_ok in H. destruct H as (details & _ & H).
    apply bind_ok in H. destruct H as (detail_df & _ & H).
    apply bind_ok in H. destruct H as (album_tracks & Htracks & H).
    apply bind_ok in H. destruct H as (track_df & Htdf & H).
    apply bind_ok in H. destruct H as (lyrics_dfs & Hlyr & H).
    apply bind_ok in H. destruct H as (lyrics_df & Hldf & H).
    injection H as <-. cbn [kpop_girl_group_albums kpop_girl_group_tracks kpop_girl_group_lyrics].
    split; [|split].
    + intros r Hr. apply album_final_in, clean_albums_spec in Hr. apply Hr.
    + intros t Ht.
      destruct (pd_concat_in _ _ _ Htdf Ht) as (ts & Hts & Htts).
      destruct (collect_ok _ _ _ _ Htracks Hts) as (id & Hid & Hget).
      apply in_map_iff in Hid. destruct Hid as (x & <- & Hx).
      exists x. split; [exact Hx|].
      unfold get_album_tracks in Hget. apply guarded_fetch_ok in Hget.
      symmetry. eapply tracks_of_soup_album; eauto.
    + intros l Hl. apply (pd_concat_rows_in _ _ _ Hldf) in Hl.
      destruct (collect_ok _ _ _ _ Hlyr Hl) as (tid & Htid & Hget).
      apply in_map_iff in Htid. destruct Htid as (t & <- & Ht).
      exists t. split; [exact Ht|].
      unfold get_track_lyrics in Hget. apply guarded_fetch_ok in Hget.
      symmetry. eapply lyrics_of_soup_track; eauto.
Qed.

Lemma main_skips_excluded_albums_witness :
  (exists out,
     fst (main web_a1 (Ok ["a1"])) = Ok (Some out)
     /\ (forall r, In r (kpop_girl_group_albums out) -> excluded (fst r) = false)
     /\ map AlbumFinal.album_id (kpop_girl_group_albums out) = ["100"])
  /\ filter (fun e => match e with Get _ => true | _ => false end)
        (snd (main web_a1 (Ok ["a1"])))
     = [Get (artist_url "a1"); Get (album_url "100"); Get (album_url "100");
        Get (track_url "31751848")].
Proof.
  split; [|reflexivity].
  eexists. split; [reflexivity|]. split; [|reflexivity].
  apply (proj2 (main_skips_excluded_albums web_a1 ["a1"]) _ eq_refl).
Defined.

End ScraperFacts.

(* ===================================================================== *)
(** * Properties of the cleaner *)
(* ===================================================================== *)

Section CleanerFacts.
Import PyStr Pandas Regex KpopDataCleaner Samples.

(** *** clean_track_ids *)

Lemma to_numeric_cell_not_nat (c : cell) : to_numeric_cell c <> NaT.
Proof. destruct c; cbn; try discriminate. destruct (parse_int s); discriminate. Qed.

(** After [dropna] the conversion to int64 finds no hole: on the values of
    the model the [except] branch of lines 84-88 is not taken.  (pandas
    takes it for an identifier that reads as an infinite float, which
    [plain_id] excludes.) *)
Lemma astype_int64_after_dropna (l : list (Tracks.t cell)) :
  astype_int64
    (map Tracks.track_id (filter (fun r => negb (isna (Tracks.track_id r))) l)) = Ok tt.
Proof.
  unfold astype_int64.
  assert (H : existsb isna
                (map Tracks.track_id
                     (filter (fun r => negb (isna (Tracks.track_id r))) l)) = false).
  { induction l as [|r t IH]; [reflexivity|]. cbn [filter].
    destruct (isna (Tracks.track_id r)) eqn:E; cbn; [exact IH|]. rewrite E. exact IH. }
  rewrite H. reflexivity.
Qed.

(** The table returned always has an int64 identifier column. *)
Lemma clean_track_ids_int64 (track_df out : DataFrame Tracks.t) :
  clean_track_ids track_df = Ok out -> Tracks.track_id (dtypes out) = int64.
Proof.
  unfold clean_track_ids. destruct (str_accessor _); [|discriminate]. cbn [rbind].
  intros H. injection H as <-. unfold convert_track_ids, select. cbn [rows dtypes].
  rewrite astype_int64_after_dropna. reflexivity.
Qed.

(** Every row returned comes from a row whose identifier does not contain
    the login-wall text, with the identifier read as a number. *)
Lemma clean_track_ids_drops_login_layer (track_df out : DataFrame Tracks.t) :
  clean_track_ids track_df = Ok out ->
  forall r', In r' (rows out) ->
  exists r, In r (rows track_df)
            /\ is_login_layer r = false
            /\ r' = Tracks.set_track_id (to_numeric_cell (Tracks.track_id r)) r.
Proof.
  unfold clean_track_ids. destruct (str_accessor _); [|discriminate]. cbn [rbind].
  intros H. injection H as <-. intros r'.
  unfold convert_track_ids, select. cbn [rows dtypes].
  rewrite astype_int64_after_dropna. cbn [rows].
  rewrite filter_In, in_map_iff. intros [(r & <- & Hr) _].
  exists r. split; [|split; [|reflexivity]].
  - destruct (filter is_login_layer (rows track_df)); cbn [rows] in Hr; [exact Hr|].
    apply filter_In in Hr. apply Hr.
  - destruct (filter is_login_layer (rows track_df)) eqn:E; cbn [rows] in Hr.
    + destruct (is_login_layer r) eqn:El; [|reflexivity].
      assert (Hin : In r (filter is_login_layer (rows track_df))) by (apply filter_In; auto).
      rewrite E in Hin. destruct Hin.
    + apply filter_In in Hr. apply negb_true_iff, Hr.
Qed.

(** A table that has been cleaned cannot be cleaned again. *)
Lemma clean_track_ids_again (track_df out : DataFrame Tracks.t) :
  clean_track_ids track_df = Ok out -> clean_track_ids out = Raise AttributeError.
Proof.
  intros H. apply clean_track_ids_int64 in H.
  unfold clean_track_ids. rewrite H. reflexivity.
Qed.

(** An all-number tracks file is loaded with an int64 column, and
    [process_data] then fails as a whole. *)
Lemma process_data_fails_on_numeric_ids (f : list string -> string -> option date)
    (album_df : DataFrame Albums.t) (lyrics_df : DataFrame LyricsCsv.t) :
  process_data f (Ok (album_df, tracks_clean, lyrics_df)) = None.
Proof. reflexivity. Qed.

(** On a tracks file with a login-wall identifier the whole of
    [process_data] runs: the login-wall track is dropped, album 300, which
    has no track, is kept with nulls, and the lyrics row whose identifier is
    not a number ends up on that album. *)
Lemma process_data_sample :
  option_map
    (fun df => map (fun r => (Total.album_id r, Total.track_id r, Total.lyrics r)) (rows df))
    (process_data no_other_format (Ok (albums_csv, tracks_raw, lyrics_csv)))
  = Some [(Int 100, Int 31751848, Str "la la la"); (Int 300, NaN, Str "not a song")].
Proof. reflexivity. Qed.

(** C1 (code at the failing input): [clean_track_ids] turns the text column
    of [tracks_raw] into the int64 column of [tracks_clean], dropping the
    login-wall row; applied to [tracks_clean], the table it has just
    returned, it raises AttributeError at the [.str] of line 70 instead of
    returning that table. *)
Theorem clean_track_ids_not_idempotent :
  clean_track_ids tracks_raw = Ok tracks_clean
  /\ clean_track_ids tracks_clean = Raise AttributeError.
Proof. split; reflexivity. Qed.

(** *** The release date *)

Lemma astype_str_is_str (d : dtype) (c : cell) : exists s, astype_str d c = Str s.
Proof. unfold astype_str. eexists; reflexivity. Qed.

(** *** filter_data *)

Lemma select_all {R : Type -> Type} (df : DataFrame R) : select (fun _ => true) df = df.
Proof.
  destruct df as [d l]. unfold select. cbn. f_equal.
  induction l as [|x t IH]; cbn; [reflexivity | rewrite IH; reflexivity].
Qed.

Lemma filter_twice {A} (p q : A -> bool) (l : list A) :
  filter q (filter p l) = filter (fun x => p x && q x) l.
Proof.
  induction l as [|x t IH]; [reflexivity|]. cbn.
  destruct (p x); cbn; [destruct (q x)|]; rewrite IH; reflexivity.
Qed.

Lemma select_twice {R : Type -> Type} (p q : R cell -> bool) (df : DataFrame R) :
  select q (select p df) = select (fun r => p r && q r) df.
Proof. unfold select. cbn. rewrite filter_twice. reflexivity. Qed.

Lemma select_ext {R : Type -> Type} (p q : R cell -> bool) (df : DataFrame R) :
  (forall r, p r = q r) -> select p df = select q df.
Proof. intros H. unfold select. rewrite (filter_ext p q H). reflexivity. Qed.

Lemma forallb_permutation {A} (f : A -> bool) (l l' : list A) :
  Permutation l l' -> forallb f l = forallb f l'.
Proof.
  induction 1 as [|x l l' _ IH|x y l|l l' l'' _ IH1 _ IH2]; cbn.
  - reflexivity.
  - rewrite IH. reflexivity.
  - destruct (f x), (f y); reflexivity.
  - congruence.
Qed.

Section Steps.
Context {R : Type -> Type}.

(** A sequence of such steps is one check and one selection. *)
Lemma apply_steps_selections (steps : list (DataFrame R -> result (DataFrame R)))
    (gps : list ((R dtype -> bool) * (R cell -> bool))) :
  Forall2 selection steps gps ->
  forall df,
    apply_steps steps df =
    if forallb (fun gp => fst gp (dtypes df)) gps
    then Ok (select (fun r => forallb (fun gp => snd gp r) gps) df)
    else Raise AttributeError.
Proof.
  induction 1 as [|step gp steps gps Hstep _ IH]; intros df; cbn [apply_steps forallb].
  - rewrite select_all. reflexivity.
  - rewrite Hstep. destruct (fst gp (dtypes df)); cbn [rbind andb]; [|reflexivity].
    rewrite IH. cbn [select dtypes].
    destruct (forallb (fun gp0 => fst gp0 (dtypes df)) gps); [|reflexivity].
    rewrite select_twice. reflexivity.
Qed.

Variable cols : FilterColumns R.

Lemma filter_steps_selections : Forall2 selection (filter_steps cols) (filter_checks cols).
Proof.
  unfold filter_steps, filter_checks, selection.
  repeat constructor; intros df; cbn [fst snd].
  - unfold drop_various_artists, keeps_artist.
    destruct (col_artist_name cols); [reflexivity | rewrite select_all; reflexivity].
  - unfold drop_empty_lyrics, keeps_lyrics, is_text.
    destruct (col_lyrics cols) as [get|]; [|rewrite select_all; reflexivity].
    destruct (get dtype (dtypes df)); cbn; try reflexivity.
    rewrite select_twice. reflexivity.
  - unfold drop_album_patterns, keeps_album, is_text.
    destruct (col_album_title cols) as [get|]; [|rewrite select_all; reflexivity].
    destruct (get dtype (dtypes df)); reflexivity.
  - unfold drop_track_patterns, keeps_track, is_text.
    destruct (col_track_title cols) as [get|]; [|rewrite select_all; reflexivity].
    destruct (get dtype (dtypes df)); reflexivity.
Qed.

Lemma filter_data_steps (df : DataFrame R) :
  filter_data cols df = apply_steps (filter_steps cols) df.
Proof.
  unfold filter_data, filter_steps. cbn [apply_steps].
  destruct (drop_various_artists cols df) as [df1|]; [|reflexivity]. cbn [rbind].
  destruct (drop_empty_lyrics cols df1) as [df2|]; [|reflexivity]. cbn [rbind].
  destruct (drop_album_patterns cols df2) as [df3|]; [|reflexivity]. cbn [rbind].
  destruct (drop_track_patterns cols df3); reflexivity.
Qed.

(** C7: when [filter_data] returns, the table has the dtypes of the input
    and its rows are the input rows that pass the four tests, unchanged
    and in their order; and the four removals applied in any order give
    what [filter_data] gives. *)
Theorem filter_data_monotonic_order_independent (df : DataFrame R) :
  (forall out, filter_data cols df = Ok out ->
     dtypes out = dtypes df /\ rows out = filter (survives cols) (rows df))
  /\ (forall steps, Permutation steps (filter_steps cols) ->
        apply_steps steps df = filter_data cols df).
Proof.
  split.
  - intros out. rewrite filter_data_steps.
    rewrite (apply_steps_selections _ _ filter_steps_selections).
    destruct (forallb _ (filter_checks cols)); [|discriminate].
    intros H. injection H as <-. cbn [select dtypes rows]. split; [reflexivity|].
    apply filter_ext. intros r. unfold survives. cbn.
    rewrite andb_true_r, !andb_assoc. reflexivity.
  - intros steps Hperm. rewrite filter_data_steps.
    destruct (Permutation_Forall2 (Permutation_sym Hperm) filter_steps_selections)
      as (checks' & Hchecks & Hsteps).
    rewrite (apply_steps_selections _ _ Hsteps).
    rewrite (apply_steps_selections _ _ filter_steps_selections).
    rewrite <- (forallb_permutation _ _ _ Hchecks).
    destruct (forallb _ (filter_checks cols)); [|reflexivity].
    f_equal. apply select_ext. intros r. symmetry.
    apply forallb_permutation, Hchecks.
Qed.

End Steps.

Lemma filter_data_monotonic_order_independent_witness :
  apply_steps (rev (filter_steps total_columns)) total_table
  = filter_data total_columns total_table
  /\ filter_data total_columns total_table
     = Ok (mkDF total_dtypes [total_row "I've IVE" "IVE" "Kitsch" "la la la"]).
Proof.
  split; [|reflexivity].
  apply (proj2 (filter_data_monotonic_order_independent total_columns total_table)).
  apply Permutation_sym, Permutation_rev.
Defined.

(** *** The reconciliation of track_id *)

Lemma dtype_eqb_eq (a b : dtype) : dtype_eqb a b = true <-> a = b.
Proof. destruct a, b; cbn; split; intros H; try reflexivity; discriminate. Qed.

Lemma to_numeric_dtype_numeric (d : dtype) (values : list cell) :
  is_numeric_dtype (to_numeric_dtype d values) = true.
Proof.
  unfold to_numeric_dtype.
  destruct d; try reflexivity; destruct (forallb is_int _); reflexivity.
Qed.

Lemma Forall2_map_self {A B} (f : A -> B) (l : list A) :
  Forall2 (fun x y => y = f x) l (map f l).
Proof. induction l; cbn; constructor; auto. Qed.

(** After the reconciliation the join on track_id never raises. *)
Lemma reconcile_mergeable (df_total : DataFrame AlbumTracks.t) (lyrics_df : DataFrame LyricsCsv.t) :
  mergeable (AlbumTracks.track_id (dtypes (fst (reconcile df_total lyrics_df))))
            (LyricsCsv.track_id (dtypes (snd (reconcile df_total lyrics_df)))) = true.
Proof.
  unfold reconcile.
  destruct (dtype_eqb (AlbumTracks.track_id (dtypes df_total))
                      (LyricsCsv.track_id (dtypes lyrics_df))) eqn:Eeq; cbn [negb].
  - cbn [fst snd]. unfold mergeable. rewrite Eeq. apply orb_true_r.
  - destruct (is_numeric_dtype (AlbumTracks.track_id (dtypes df_total))) eqn:Enum;
      cbn [fst snd dtypes]; [|reflexivity].
    unfold mergeable. rewrite Enum. cbn [LyricsCsv.set_track_id LyricsCsv.track_id].
    rewrite to_numeric_dtype_numeric. reflexivity.
Qed.

Lemma keys_accepted_mergeable {A B} (l r : dtype) (left : list A) (right : list B) :
  mergeable l r = true -> keys_accepted l r left right = true.
Proof. intros H. unfold keys_accepted. rewrite H. apply orb_true_r. Qed.

(** C5 (code at the failing input): the merged side is numeric (float64,
    album 300 having no track) and the lyrics side is text, with one
    identifier that is not a number.  The reconciliation makes the lyrics
    column numeric and that identifier null, but line 190 has no [dropna]
    (the track side has one, line 81): the row is still in the lyrics
    table, and the join that follows gives its lyrics to album 300, the
    album without tracks, whose identifier is null as well. *)
Theorem reconcile_keeps_rows_with_null_id :
  is_numeric_dtype
    (LyricsCsv.track_id (dtypes (snd (reconcile album_tracks lyrics_csv)))) = true
  /\ rows (snd (reconcile album_tracks lyrics_csv))
     = [LyricsCsv.mk (Int 31751848) (Str "03:15") (Str "la la la");
        LyricsCsv.mk NaN (Str "00:00") (Str "not a song")]
  /\ exists out,
       merge_lyrics (fst (reconcile album_tracks lyrics_csv))
                    (snd (reconcile album_tracks lyrics_csv)) = Ok out
       /\ map (fun r => (Total.album_id r, Total.track_id r, Total.lyrics r)) (rows out)
          = [(Int 100, Int 31751848, Str "la la la");
             (Int 300, NaN, Str "not a song")].
Proof. split; [reflexivity|]. split; [reflexivity|]. eexists. split; reflexivity. Qed.

(** *** The joins *)

(** A left join keeps every left row. *)
Lemma merge_left_keeps {A B} (k : A -> B -> bool) (l : list A) (r : list B) (a : A) :
  In a l -> exists p, In p (merge_left k l r) /\ fst p = a.
Proof.
  intros Ha. unfold merge_left.
  destruct (filter (k a) r) as [|m ms] eqn:E.
  - exists (a, None). split; [|reflexivity].
    apply in_flat_map. exists a. split; [exact Ha|]. rewrite E. left. reflexivity.
  - exists (a, Some m). split; [|reflexivity].
    apply in_flat_map. exists a. split; [exact Ha|]. rewrite E. left. reflexivity.
Qed.


(** Dropping duplicates keeps a representative of every row. *)
Lemma drop_duplicates_from_keeps {A} (same : A -> A -> bool) (seen l : list A) (a : A) :
  (forall x y z, same x y = true -> same y z = true -> same x z = true) ->
  (forall x, same x x = true) ->
  In a l ->
  existsb (same a) seen = true
  \/ exists x, In x (drop_duplicates_from same seen l) /\ same a x = true.
Proof.
  intros Htrans Hrefl. revert seen.
  induction l as [|y t IH]; intros seen Ha; [destruct Ha|]. cbn [drop_duplicates_from].
  destruct Ha as [-> | Ha].
  - destruct (existsb (same a) seen) eqn:E; [left; reflexivity|].
    right. exists a. split; [left; reflexivity | apply Hrefl].
  - destruct (existsb (same y) seen) eqn:E.
    + apply IH, Ha.
    + destruct (IH (y :: seen) Ha) as [H | (x & Hx & Hs)].
      * cbn [existsb] in H. apply orb_true_iff in H. destruct H as [H | H].
        -- right. exists y. split; [left; reflexivity | exact H].
        -- left. exact H.
      * right. exists x. split; [right; exact Hx | exact Hs].
Qed.




End CleanerFacts.

(* ===================================================================== *)
(** * Further properties: strings *)
(* ===================================================================== *)

Section StringFacts.
Import PyStr.

Lemma prefix_app (p r : string) : prefix p (p ++ r) = true.
Proof.
  induction p as [|c p IH]; cbn.
  - destruct r; reflexivity.
  - destruct (ascii_dec c c); [exact IH | congruence].
Qed.

Lemma prefix_split (p s : string) : prefix p s = true -> exists r, s = p ++ r.
Proof.
  revert s. induction p as [|c p IH]; intros s H.
  - exists s. reflexivity.
  - destruct s as [|d s]; [discriminate|]. cbn in H.
    destruct (ascii_dec c d) as [->|]; [|discriminate].
    destruct (IH s H) as [r ->]. exists r. reflexivity.
Qed.

Lemma str_app_assoc (a b c : string) : (a ++ b) ++ c = a ++ b ++ c.
Proof. induction a as [|x a IH]; cbn; [reflexivity | rewrite IH; reflexivity]. Qed.

Lemma str_app_nil_r (a : string) : a ++ "" = a.
Proof. induction a as [|x a IH]; cbn; [reflexivity | rewrite IH; reflexivity]. Qed.

Lemma str_app_length (a b : string) :
  String.length (a ++ b) = (String.length a + String.length b)%nat.
Proof. induction a as [|x a IH]; cbn; [reflexivity | rewrite IH; reflexivity]. Qed.

Lemma prefix_app_r (p u r : string) : prefix p u = true -> prefix p (u ++ r) = true.
Proof.
  intros H. destruct (prefix_split p u H) as [v ->].
  rewrite str_app_assoc. apply prefix_app.
Qed.

Lemma prefix_first (c d : ascii) (p s : string) :
  c <> d -> prefix (String c p) (String d s) = false.
Proof. intros H. cbn. destruct (ascii_dec c d); [contradiction | reflexivity]. Qed.

Lemma drop_app (p r : string) : drop (String.length p) (p ++ r) = r.
Proof. induction p as [|c p IH]; cbn; [destruct r; reflexivity | exact IH]. Qed.

Lemma contains_unfold (pat s : string) :
  contains pat s = if prefix pat s then true
                   else match s with
                        | EmptyString => false
                        | String _ t => contains pat t
                        end.
Proof. destruct s; reflexivity. Qed.

(** [contains] is the substring test. *)
Lemma contains_spec (pat s : string) :
  contains pat s = true <-> exists a b, s = a ++ pat ++ b.
Proof.
  split.
  - induction s as [|c s IH]; rewrite contains_unfold.
    + destruct (prefix pat "") eqn:E; [|discriminate]. intros _.
      destruct (prefix_split _ _ E) as [r Hr]. exists "", r. exact Hr.
    + destruct (prefix pat (String c s)) eqn:E.
      * intros _. destruct (prefix_split _ _ E) as [r Hr]. exists "", r. exact Hr.
      * intros H. destruct (IH H) as (a & b & ->). exists (String c a), b. reflexivity.
  - intros (a & b & ->). induction a as [|c a IH]; rewrite contains_unfold.
    + cbn [append]. rewrite prefix_app. reflexivity.
    + destruct (prefix pat (String c a ++ pat ++ b)); [reflexivity | exact IH].
Qed.

Lemma mem_spec (c : ascii) (chars : string) :
  mem c chars = true <-> exists a b, chars = a ++ String c b.
Proof.
  split.
  - induction chars as [|d t IH]; cbn; [discriminate|].
    destruct (Ascii.eqb_spec c d) as [->|Hne]; cbn.
    + intros _. exists "", t. reflexivity.
    + intros H. destruct (IH H) as (a & b & ->). exists (String d a), b. reflexivity.
  - intros (a & b & ->). induction a as [|d a IH]; cbn.
    + rewrite Ascii.eqb_refl. reflexivity.
    + rewrite IH. apply orb_true_r.
Qed.

(** What [lstrip] returns does not begin with a character of the set. *)
Lemma lstrip_head (chars s : string) :
  match lstrip chars s with
  | EmptyString => True
  | String c _ => mem c chars = false
  end.
Proof.
  induction s as [|c s IH]; cbn; [exact I|].
  destruct (mem c chars) eqn:E; [exact IH | exact E].
Qed.

Lemma split_head_app (d : ascii) (u r : string) :
  mem d u = false -> split_head d (u ++ String d r) = u.
Proof.
  induction u as [|c u IH]; cbn.
  - intros _. rewrite Ascii.eqb_refl. reflexivity.
  - intros H. apply orb_false_iff in H. destruct H as [Hc Hu].
    rewrite Ascii.eqb_sym, Hc, (IH Hu). reflexivity.
Qed.

Lemma split_head_no_delimiter (d : ascii) (s : string) : mem d (split_head d s) = false.
Proof.
  induction s as [|c s IH]; cbn; [reflexivity|].
  destruct (Ascii.eqb_spec c d) as [->|Hne]; cbn; [reflexivity|].
  rewrite IH, orb_false_r. apply Ascii.eqb_neq. congruence.
Qed.

End StringFacts.

(* ===================================================================== *)
(** * Further properties: the scraper *)
(* ===================================================================== *)

Section ScraperMore.
Import PyStr Soup BugsMusicScraper Samples.

Ltac rinv' H :=
  repeat match type of H with
         | rbind ?r _ = _ =>
             let E := fresh "E" in
             destruct r eqn:E; cbn [rbind] in H; [ | discriminate H ]
         | Ok _ = Ok _ => injection H as H
         | Raise _ = Ok _ => discriminate H
         end.

(** X1: [_get_soup] requests the URL once.  On status 200 it returns the
    page; on a 4xx or 5xx status it logs a warning and raises HTTPError; on
    any other status it logs the warning and still returns the body as a
    page. *)
Theorem get_soup_by_status (web : string -> response) (url : string) :
  let r := web url in
  let warning := LogWarning ("Failed to get " ++ url) in
  (status_code r = 200%Z -> _get_soup web url = (Ok (html r), [Get url]))
  /\ (fetch_fails r = true -> _get_soup web url = (Raise HTTPError, [Get url; warning]))
  /\ (status_code r <> 200%Z -> fetch_fails r = false ->
      _get_soup web url = (Ok (html r), [Get url; warning])).
Proof.
  intros r warning. subst warning.
  unfold _get_soup, fetch_fails, raise_for_status, bind, emit, ret, raise. fold r.
  split; [|split].
  - intros ->. reflexivity.
  - destruct (status_code r =? 200)%Z; [discriminate|]. cbn [negb andb].
    intros ->. reflexivity.
  - intros Hne. destruct (Z.eqb_spec (status_code r) 200); [contradiction|].
    cbn [negb andb]. intros ->. reflexivity.
Qed.

Lemma get_soup_by_status_witness :
  _get_soup (serve (document [])) "u" = (Ok (document []), [Get "u"])
  /\ _get_soup (fun _ => not_found) "u" = (Raise HTTPError, [Get "u"; LogWarning "Failed to get u"])
  /\ _get_soup (fun _ => no_content) "u" = (Ok (document []), [Get "u"; LogWarning "Failed to get u"]).
Proof.
  split; [|split].
  - apply (proj1 (get_soup_by_status (serve (document [])) "u")). reflexivity.
  - apply (proj1 (proj2 (get_soup_by_status (fun _ => not_found) "u"))). reflexivity.
  - apply (proj2 (proj2 (get_soup_by_status (fun _ => no_content) "u"))).
    + discriminate.
    + reflexivity.
Defined.

(** X2: when the onclick value is the fixed prefix, an identifier and a
    quote, and the identifier has no quote and starts with a character that
    does not occur in the prefix, [get_album_tracks] extracts exactly that
    identifier. *)
Theorem track_id_of_onclick_between_prefix_and_quote (c : ascii) (id rest : string) :
  mem c LISTEN_PREFIX = false ->
  mem "'" (String c id) = false ->
  track_id_of_onclick (LISTEN_PREFIX ++ String c id ++ String "'" rest) = String c id.
Proof.
  intros Hc Hq. unfold track_id_of_onclick.
  rewrite lstrip_listen_prefix.
  change (String c id ++ String "'" rest) with (String c (id ++ String "'" rest)).
  cbn [lstrip]. rewrite Hc.
  change (String c (id ++ String "'" rest)) with (String c id ++ String "'" rest).
  apply split_head_app, Hq.
Qed.

Lemma track_id_of_onclick_between_prefix_and_quote_witness :
  track_id_of_onclick (LISTEN_PREFIX ++ "6181261" ++ "',true);") = "6181261".
Proof.
  apply (track_id_of_onclick_between_prefix_and_quote "6" "181261" ",true);"); reflexivity.
Defined.

(** X3: whatever the onclick value, the identifier [get_album_tracks]
    extracts contains no quote and does not begin with a character that
    occurs in the prefix; in particular it never begins with 0 or 9. *)
Theorem track_id_of_onclick_never_starts_in_prefix_set (onclick : string) :
  mem "'" (track_id_of_onclick onclick) = false
  /\ forall c t, track_id_of_onclick onclick = String c t ->
                 mem c LISTEN_PREFIX = false /\ c <> "0"%char /\ c <> "9"%char.
Proof.
  unfold track_id_of_onclick. split; [apply split_head_no_delimiter|].
  intros c t H.
  pose proof (lstrip_head LISTEN_PREFIX onclick) as Hhead.
  destruct (lstrip LISTEN_PREFIX onclick) as [|c' s']; [discriminate|].
  cbn [split_head] in H. destruct (Ascii.eqb c' "'"); [discriminate|].
  injection H as -> _. split; [exact Hhead|].
  split; intros ->; discriminate.
Qed.

Lemma track_id_of_onclick_never_starts_in_prefix_set_witness :
  track_id_of_onclick "showLoginLayer();" = "howLoginLayer();"
  /\ (mem "h" LISTEN_PREFIX = false /\ "h"%char <> "0"%char /\ "h"%char <> "9"%char).
Proof.
  split; [reflexivity|].
  exact (proj2 (track_id_of_onclick_never_starts_in_prefix_set "showLoginLayer();")
           "h"%char "owLoginLayer();" eq_refl).
Defined.

(** X4: [main] keeps the album rows in their order and removes exactly
    those whose title has '권리없는', ' OST' or '일본' as a substring, or
    whose artist name has 'Various Artists' as a substring. *)
Theorem clean_albums_removes_marked_rows (album_df_total : list AlbumSummary.t) :
  clean_albums album_df_total = filter (fun r => negb (excluded r)) album_df_total
  /\ forall r,
       excluded r = true <->
       (exists a b, AlbumSummary.album_title r = a ++ "권리없는" ++ b)
       \/ (exists a b, AlbumSummary.album_title r = a ++ " OST" ++ b)
       \/ (exists a b, AlbumSummary.album_title r = a ++ "일본" ++ b)
       \/ (exists a b, AlbumSummary.artist_name r = a ++ "Various Artists" ++ b).
Proof.
  split.
  - unfold clean_albums. rewrite !filter_twice. apply filter_ext.
    intros r. unfold excluded. rewrite !negb_orb, !andb_assoc. reflexivity.
  - intros r. unfold excluded. rewrite !orb_true_iff, !contains_spec. tauto.
Qed.

(** *** The guarded extractors *)

Lemma guarded_fetch_result {B} (web : string -> response) (url msg : string)
    (k : node -> result B) :
  fst (try_except
         (soup <- _get_soup web url ;; df <- lift (k soup) ;; ret (Some df))
         (fun _ => emit (LogError msg) ;; ret None))
  = Ok (if fetch_fails (web url) then None
        else match k (html (web url)) with
             | Ok b => Some b
             | Raise _ => None
             end).
Proof.
  pose proof (get_soup_result web url) as Hs.
  unfold try_except, bind at 1.
  destruct (_get_soup web url) as [res tr]. cbn [fst] in Hs. subst res.
  destruct (fetch_fails (web url)); [reflexivity|].
  unfold lift, bind, ret. destruct (k (html (web url))); reflexivity.
Qed.

Lemma guarded_fetch_reports {B} (web : string -> response) (url msg : string)
    (k : node -> result B) :
  fst (try_except
         (soup <- _get_soup web url ;; df <- lift (k soup) ;; ret (Some df))
         (fun _ => emit (LogError msg) ;; ret None)) = Ok None ->
  In (LogError msg)
     (snd (try_except
             (soup <- _get_soup web url ;; df <- lift (k soup) ;; ret (Some df))
             (fun _ => emit (LogError msg) ;; ret None))).
Proof.
  unfold try_except, bind at 1 3.
  destruct (_get_soup web url) as [[soup|e] tr].
  - unfold lift, bind, ret, emit. destruct (k soup); cbn [fst snd].
    + discriminate.
    + intros _. apply in_or_app. right. left. reflexivity.
  - cbn. intros _. apply in_or_app. right. left. reflexivity.
Qed.

Lemma guarded_fetch_requests {B} (web : string -> response) (url msg : string)
    (k : node -> result B) :
  In (Get url)
     (snd (try_except
             (soup <- _get_soup web url ;; df <- lift (k soup) ;; ret (Some df))
             (fun _ => emit (LogError msg) ;; ret None))).
Proof.
  destruct (get_soup_first_event web url) as (rest & Hrest & _).
  unfold try_except, bind at 1.
  destruct (_get_soup web url) as [[soup|e] tr]; cbn [snd] in Hrest; subst tr.
  - unfold lift, bind, ret, emit. destruct (k soup); cbn; left; reflexivity.
  - cbn. left. reflexivity.
Qed.

(** X5: [get_track_lyrics] never raises.  On a fetched page with a [time]
    element and a lyrics container that has an [xmp] element it returns a
    row: the identifier asked for, the text of the first [time] element as
    duration and the text of the [xmp] element with every CR LF replaced by
    a space; and a row it returns is always made this way.  When the fetch
    fails or the [time] element, the lyrics container or its [xmp] element
    is missing, it returns None and logs the failure for that track. *)
Theorem get_track_lyrics_row_or_none (web : string -> response) (track_id : string) :
  let soup := html (web (BASE_URL ++ "/track/" ++ track_id)) in
  (exists o, fst (get_track_lyrics web track_id) = Ok o)
  /\ (forall time container xmp,
        fetch_fails (web (BASE_URL ++ "/track/" ++ track_id)) = false ->
        find "time" None soup = Some time ->
        find "div" (Some "lyricsContainer") soup = Some container ->
        find "xmp" None container = Some xmp ->
        fst (get_track_lyrics web track_id)
        = Ok (Some (Lyrics.mk track_id (text time) (replace CRLF " " (text xmp)))))
  /\ (forall l, fst (get_track_lyrics web track_id) = Ok (Some l) ->
       Lyrics.track_id l = track_id
       /\ exists time container xmp,
            find "time" None soup = Some time
            /\ find "div" (Some "lyricsContainer") soup = Some container
            /\ find "xmp" None container = Some xmp
            /\ Lyrics.duration l = text time
            /\ Lyrics.lyrics l = replace CRLF " " (text xmp))
  /\ (fetch_fails (web (BASE_URL ++ "/track/" ++ track_id)) = true
      \/ find "time" None soup = None
      \/ find "div" (Some "lyricsContainer") soup = None
      \/ (exists container, find "div" (Some "lyricsContainer") soup = Some container
                            /\ find "xmp" None container = None) ->
      fst (get_track_lyrics web track_id) = Ok None
      /\ In (LogError ("Failed to get lyrics for track " ++ track_id))
            (snd (get_track_lyrics web track_id))).
Proof.
  intros soup. unfold get_track_lyrics.
  pose proof (guarded_fetch_result web (BASE_URL ++ "/track/" ++ track_id)
                ("Failed to get lyrics for track " ++ track_id)
                (lyrics_of_soup track_id)) as Hres.
  fold soup in Hres.
  split; [eexists; exact Hres|]. split; [|split].
  - intros time container xmp Hf Ht Hc Hx. rewrite Hres, Hf.
    unfold lyrics_of_soup. rewrite Ht, Hc. cbn [dot_text dot_child rbind].
    rewrite Hx. reflexivity.
  - intros l Hl. rewrite Hres in Hl.
    destruct (fetch_fails _); [discriminate|].
    destruct (lyrics_of_soup track_id soup) as [l'|] eqn:E; [|discriminate].
    injection Hl as ->. unfold lyrics_of_soup in E.
    destruct (find "time" None soup) as [time|]; [|discriminate].
    destruct (find "div" (Some "lyricsContainer") soup) as [container|]; [|discriminate].
    cbn [dot_text dot_child rbind] in E.
    destruct (find "xmp" None container) as [xmp|] eqn:Ex; [|discriminate].
    cbn [dot_text rbind] in E. injection E as <-.
    split; [reflexivity|]. exists time, container, xmp. auto.
  - intros Hfail.
    assert (Hnone : fst (try_except
         (soup0 <- _get_soup web (BASE_URL ++ "/track/" ++ track_id) ;;
          df <- lift (lyrics_of_soup track_id soup0) ;; ret (Some df))
         (fun _ => emit (LogError ("Failed to get lyrics for track " ++ track_id)) ;;
                   ret None)) = Ok None).
    { rewrite Hres.
      destruct (fetch_fails _) eqn:Ef; [reflexivity|].
      unfold lyrics_of_soup.
      destruct Hfail as [H | [H | [H | (container & Hc & Hx)]]].
      - discriminate.
      - rewrite H. reflexivity.
      - destruct (find "time" None soup); [|reflexivity]. rewrite H. reflexivity.
      - destruct (find "time" None soup); [|reflexivity]. rewrite Hc.
        cbn [dot_text dot_child rbind]. rewrite Hx. reflexivity. }
    split; [exact Hnone | apply guarded_fetch_reports, Hnone].
Qed.

Lemma get_track_lyrics_row_or_none_witness :
  fst (get_track_lyrics (serve page_of_track_31751848) "31751848")
  = Ok (Some (Lyrics.mk "31751848" "03:15" "la la la"))
  /\ fst (get_track_lyrics (serve (document [Tag "time" [] [] [NavigableString "03:15"]])) "7")
     = Ok None.
Proof.
  split.
  - exact (proj1 (proj2 (get_track_lyrics_row_or_none
                           (serve page_of_track_31751848) "31751848"))
             _ _ _ eq_refl eq_refl eq_refl eq_refl).
  - apply (proj2 (proj2 (proj2 (get_track_lyrics_row_or_none
                           (serve (document [Tag "time" [] [] [NavigableString "03:15"]]))
                           "7")))).
    right. right. left. reflexivity.
Defined.

Lemma rmap_ok {A B} (f : A -> result B) (l : list A) (ys : list B) :
  rmap f l = Ok ys -> Forall2 (fun x y => f x = Ok y) l ys.
Proof.
  revert ys. induction l as [|x t IH]; cbn [rmap]; intros ys H.
  - injection H as <-. constructor.
  - rinv' H. subst ys. constructor; auto.
Qed.

Lemma rmap_raises {A B} (f : A -> result B) (l : list A) (x : A) :
  In x l -> (exists e, f x = Raise e) -> exists e, rmap f l = Raise e.
Proof.
  intros Hx [e He]. induction l as [|y t IH]; [destruct Hx|]. cbn [rmap].
  destruct Hx as [-> | Hx].
  - rewrite He. eexists; reflexivity.
  - destruct (f y); [|eexists; reflexivity]. cbn [rbind].
    destruct (IH Hx) as [e' ->]. eexists; reflexivity.
Qed.

Lemma rmap_total {A B} (f : A -> result B) (l : list A) :
  Forall (fun x => exists y, f x = Ok y) l -> exists ys, rmap f l = Ok ys.
Proof.
  induction 1 as [|x t [y Hy] _ [ys IH]]; cbn [rmap].
  - eexists; reflexivity.
  - rewrite Hy. cbn [rbind]. rewrite IH. eexists; reflexivity.
Qed.

(** X6: [get_album_tracks] never raises.  On a fetched page each of whose
    title blocks has a link with an onclick attribute it returns a table,
    and a table it returns has one row per title block of the page, in
    order, each with the album identifier asked for, the text of the block
    without line feeds as title and the identifier read from the onclick
    of its first link; a page without title blocks gives the empty table.
    As soon as one title block has no link, the whole album gives None:
    none of its tracks is returned. *)
Theorem get_album_tracks_all_or_none (web : string -> response) (album_id : string) :
  let r := web (BASE_URL ++ "/album/" ++ album_id) in
  let blocks := find_all "p" (Some "title") (html r) in
  (exists o, fst (get_album_tracks web album_id) = Ok o)
  /\ (fetch_fails r = false ->
      Forall (fun elem => exists a onclick,
                find "a" None elem = Some a
                /\ getitem (Some a) "onclick" = Ok onclick) blocks ->
      exists ts, fst (get_album_tracks web album_id) = Ok (Some ts)
                 /\ length ts = length blocks)
  /\ (forall ts, fst (get_album_tracks web album_id) = Ok (Some ts) ->
       Forall2 (fun elem row =>
                  Track.album_id row = album_id
                  /\ Track.track_title row = replace NL "" (text elem)
                  /\ exists a onclick,
                       find "a" None elem = Some a
                       /\ getitem (Some a) "onclick" = Ok onclick
                       /\ Track.track_id row = track_id_of_onclick onclick)
               blocks ts)
  /\ (fetch_fails r = false -> blocks = [] ->
      fst (get_album_tracks web album_id) = Ok (Some []))
  /\ (forall elem, In elem blocks -> find "a" None elem = None ->
      fst (get_album_tracks web album_id) = Ok None
      /\ In (LogError ("Failed to get tracks for album " ++ album_id))
            (snd (get_album_tracks web album_id))).
Proof.
  intros r blocks. unfold get_album_tracks.
  pose proof (guarded_fetch_result web (BASE_URL ++ "/album/" ++ album_id)
                ("Failed to get tracks for album " ++ album_id)
                (tracks_of_soup album_id)) as Hres.
  fold r in Hres.
  split; [eexists; exact Hres|]. split; [|split; [|split]].
  - intros Hf Hall.
    destruct (rmap_total (track_row album_id) blocks) as [ts Hts].
    { revert Hall. apply Forall_impl. intros elem (a & onclick & Ha & Ho).
      unfold track_row. cbn [dot_child rbind]. rewrite Ha, Ho. eexists; reflexivity. }
    exists ts. rewrite Hres, Hf. unfold tracks_of_soup. fold blocks. rewrite Hts.
    split; [reflexivity|]. symmetry. apply rmap_ok in Hts. exact (Forall2_length Hts).
  - intros ts Hts. rewrite Hres in Hts.
    destruct (fetch_fails r); [discriminate|].
    destruct (tracks_of_soup album_id (html r)) as [ts'|] eqn:E; [|discriminate].
    injection Hts as ->. unfold tracks_of_soup in E. fold blocks in E.
    apply rmap_ok in E. revert E. apply Forall2_impl.
    intros elem row Hrow. unfold track_row in Hrow.
    cbn [dot_child rbind] in Hrow.
    destruct (find "a" None elem) as [a|]; [|discriminate].
    destruct (getitem (Some a) "onclick") as [onclick|] eqn:Eo; [|discriminate].
    cbn [rbind] in Hrow. injection Hrow as <-.
    split; [reflexivity|]. split; [reflexivity|]. exists a, onclick. auto.
  - intros Hf Hb. rewrite Hres, Hf. unfold tracks_of_soup. fold blocks. rewrite Hb.
    reflexivity.
  - intros elem Hin Ha.
    assert (Hnone : fst (try_except
         (soup <- _get_soup web (BASE_URL ++ "/album/" ++ album_id) ;;
          df <- lift (tracks_of_soup album_id soup) ;; ret (Some df))
         (fun _ => emit (LogError ("Failed to get tracks for album " ++ album_id)) ;;
                   ret None)) = Ok None).
    { rewrite Hres. destruct (fetch_fails r); [reflexivity|].
      destruct (rmap_raises (track_row album_id) blocks elem Hin) as [e He].
      - unfold track_row. cbn [dot_child rbind]. rewrite Ha. eexists; reflexivity.
      - unfold tracks_of_soup. fold blocks. rewrite He. reflexivity. }
    split; [exact Hnone | apply guarded_fetch_reports, Hnone].
Qed.

Lemma get_album_tracks_all_or_none_witness :
  fst (get_album_tracks (serve page_of_album_100) "100")
  = Ok (Some [Track.mk "100" "31751848" "Kitsch"])
  /\ fst (get_album_tracks (serve page_with_broken_title) "100") = Ok None
  /\ fst (get_album_tracks (serve (document [])) "100") = Ok (Some []).
Proof.
  split; [|split].
  - destruct (proj1 (proj2 (get_album_tracks_all_or_none (serve page_of_album_100) "100"))
                eq_refl) as (ts & Hts & _).
    + repeat constructor. eexists. eexists. split; reflexivity.
    + rewrite Hts. vm_compute in Hts. injection Hts as <-. reflexivity.
  - apply (proj2 (proj2 (proj2 (proj2 (get_album_tracks_all_or_none
                                         (serve page_with_broken_title) "100"))))
             (Tag "p" ["title"] [] [NavigableString "I AM"])).
    + right. left. reflexivity.
    + reflexivity.
  - apply (proj1 (proj2 (proj2 (proj2 (get_album_tracks_all_or_none
                                         (serve (document [])) "100"))))); reflexivity.
Defined.

(** *** The loops of main *)

(** A loop over a body that never raises returns what its iterations
    returned, the None left out, and has the events of every iteration. *)
Lemma collect_total {A B} (f : A -> M (option B)) (l : list A) :
  (forall x, exists o, fst (f x) = Ok o) ->
  fst (collect f l)
  = Ok (flat_map (fun x => match fst (f x) with
                           | Ok (Some b) => [b]
                           | _ => []
                           end) l)
  /\ forall x e, In x l -> In e (snd (f x)) -> In e (snd (collect f l)).
Proof.
  intros Hf. induction l as [|y t [IHr IHt]]; cbn [collect flat_map].
  - split; [reflexivity | intros x e []].
  - destruct (Hf y) as [o Ho]. split.
    + rewrite bind_result, Ho, bind_result, IHr. cbn [fst ret].
      destruct o; reflexivity.
    + intros x e Hx He. rewrite bind_trace, Ho. apply in_or_app.
      destruct Hx as [-> | Hx]; [left; exact He | right].
      rewrite bind_trace, IHr. apply in_or_app. left. eauto.
Qed.

(** X7: the loops of steps 2, 3 and 4 never raise, whatever the site
    answers: each requests the page of every identifier of its list, and
    returns, in order, the records of the identifiers whose extraction
    succeeded, the others being skipped. *)
Theorem later_stages_skip_failures (web : string -> response) (ids : list string) :
  (fst (collect (get_album_details web) ids)
   = Ok (flat_map (fun id => match fst (get_album_details web id) with
                             | Ok (Some d) => [d]
                             | _ => []
                             end) ids)
   /\ forall id, In id ids ->
        In (Get (BASE_URL ++ "/album/" ++ id)) (snd (collect (get_album_details web) ids)))
  /\ (fst (collect (get_album_tracks web) ids)
      = Ok (flat_map (fun id => match fst (get_album_tracks web id) with
                                | Ok (Some d) => [d]
                                | _ => []
                                end) ids)
      /\ forall id, In id ids ->
           In (Get (BASE_URL ++ "/album/" ++ id)) (snd (collect (get_album_tracks web) ids)))
  /\ (fst (collect (get_track_lyrics web) ids)
      = Ok (flat_map (fun id => match fst (get_track_lyrics web id) with
                                | Ok (Some d) => [d]
                                | _ => []
                                end) ids)
      /\ forall id, In id ids ->
           In (Get (BASE_URL ++ "/track/" ++ id)) (snd (collect (get_track_lyrics web) ids))).
Proof.
  split; [|split].
  - destruct (collect_total (get_album_details web) ids) as [Hr Ht].
    + intros id. eexists. apply get_album_details_result.
    + split; [exact Hr|]. intros id Hid. apply (Ht id _ Hid).
      unfold get_album_details. apply guarded_fetch_requests.
  - destruct (collect_total (get_album_tracks web) ids) as [Hr Ht].
    + intros id. apply get_album_tracks_never_raises.
    + split; [exact Hr|]. intros id Hid. apply (Ht id _ Hid).
      unfold get_album_tracks. apply guarded_fetch_requests.
  - destruct (collect_total (get_track_lyrics web) ids) as [Hr Ht].
    + intros id. apply get_track_lyrics_never_raises.
    + split; [exact Hr|]. intros id Hid. apply (Ht id _ Hid).
      unfold get_track_lyrics. apply guarded_fetch_requests.
Qed.

Lemma later_stages_skip_failures_witness :
  In (Get (album_url "100"))
     (snd (collect (get_album_details web_a1) ["200"; "100"])).
Proof.
  apply (proj2 (proj1 (later_stages_skip_failures web_a1 ["200"; "100"])) "100").
  right. left. reflexivity.
Defined.

Lemma for_each_raises {A B} (f : A -> M B) (l : list A) (x : A) :
  In x l -> (exists e, fst (f x) = Raise e) -> exists e, fst (for_each f l) = Raise e.
Proof.
  intros Hx [e He]. induction l as [|y t IH]; [destruct Hx|]. cbn [for_each].
  rewrite bind_result. destruct Hx as [-> | Hx].
  - rewrite He. eexists; reflexivity.
  - destruct (fst (f y)); [|eexists; reflexivity].
    rewrite bind_result. destruct (IH Hx) as [e' ->]. eexists; reflexivity.
Qed.

(** X8: when the album list of any one artist of the list cannot be
    fetched, [main] raises, whatever the other artists: it writes nothing,
    and it has requested only album lists of artists. *)
Theorem main_aborts_on_any_artist_failure (web : string -> response)
    (artist_id_list : list string) (a : string) :
  In a artist_id_list ->
  fetch_fails (web (BASE_URL ++ "/artist/" ++ a ++ "/albums")) = true ->
  (exists e, fst (main web (Ok artist_id_list)) = Raise e)
  /\ forall u, In (Get u) (snd (main web (Ok artist_id_list))) ->
               exists a', In a' artist_id_list
                          /\ u = BASE_URL ++ "/artist/" ++ a' ++ "/albums".
Proof.
  intros Ha Hfail.
  destruct (for_each_raises (get_artist_albums web) artist_id_list a Ha) as [e He].
  { exists HTTPError. rewrite get_artist_albums_result, Hfail. reflexivity. }
  assert (Hstep : fst (collect_albums web artist_id_list) = Raise e).
  { unfold collect_albums. rewrite bind_result, He. reflexivity. }
  unfold main. split.
  - exists e. rewrite bind_result, Hstep. reflexivity.
  - intros u Hu. rewrite bind_trace, Hstep in Hu.
    unfold collect_albums in Hu. rewrite bind_trace, He in Hu.
    apply for_each_trace in Hu. destruct Hu as (a' & Ha' & Hu).
    exists a'. split; [exact Ha' | apply (get_artist_albums_trace web), Hu].
Qed.

Lemma main_aborts_on_any_artist_failure_witness :
  exists e, fst (main web_a1_missing (Ok ["a0"; "a1"; "a2"])) = Raise e.
Proof.
  apply (main_aborts_on_any_artist_failure web_a1_missing ["a0"; "a1"; "a2"] "a1").
  - right. left. reflexivity.
  - reflexivity.
Defined.

Lemma pd_concat_ok_nonempty {A} (frames : list (list A)) (l : list A) :
  pd_concat frames = Ok l -> frames <> [].
Proof. destruct frames; [discriminate | intros _; discriminate]. Qed.

(** X9: a run of [main] that completes has written at least one album
    row, one track row and one lyrics row: when no album is kept, no detail
    page can be read or no lyrics can be read, [pd.concat] has nothing to
    concatenate and the run raises instead. *)
Theorem main_completed_run_is_not_empty (web : string -> response)
    (artist_id_list : list string) (out : Outputs) :
  fst (main web (Ok artist_id_list)) = Ok (Some out) ->
  kpop_girl_group_albums out <> []
  /\ kpop_girl_group_tracks out <> []
  /\ kpop_girl_group_lyrics out <> [].
Proof.
  unfold main. intros H.
  apply bind_ok in H. destruct H as (all & _ & H). cbv zeta in H.
  apply bind_ok in H. destruct H as (text_columns & _ & H).
  apply bind_ok in H. destruct H as (details & Hdet & H).
  apply bind_ok in H. destruct H as (detail_df & Hddf & H).
  apply bind_ok in H. destruct H as (album_tracks & _ & H).
  apply bind_ok in H. destruct H as (track_df & _ & H).
  apply bind_ok in H. destruct H as (lyrics_dfs & Hlyr & H).
  apply bind_ok in H. destruct H as (lyrics_df & Hldf & H).
  injection H as <-. cbn [kpop_girl_group_albums kpop_girl_group_tracks kpop_girl_group_lyrics].
  cbn [fst lift] in Hddf, Hldf.
  split; [|split].
  - destruct details as [|d ds]; [discriminate Hddf|].
    destruct (collect_ok _ _ _ d Hdet (or_introl eq_refl)) as (id & Hid & _).
    apply in_map_iff in Hid. destruct Hid as (r & _ & Hr).
    destruct (merge_left_keeps same_album_id _ detail_df r Hr) as (p & Hp & _).
    destruct (drop_duplicates_from_keeps same_id_title []
                (merge_left same_album_id (clean_albums all) detail_df) p)
      as [Hseen | (x & Hx & _)].
    + unfold same_id_title. intros x y z Hxy Hyz.
      apply andb_true_iff in Hxy, Hyz. destruct Hxy as [H1 H2], Hyz as [H3 H4].
      apply String.eqb_eq in H1, H2, H3, H4. rewrite H1, H2, H3, H4, !String.eqb_refl.
      reflexivity.
    + intros x. unfold same_id_title. rewrite !String.eqb_refl. reflexivity.
    + exact Hp.
    + discriminate Hseen.
    + unfold drop_duplicates. intros Hnil. rewrite Hnil in Hx. destruct Hx.
  - destruct lyrics_dfs as [|l ls]; [discriminate Hldf|].
    destruct (collect_ok _ _ _ l Hlyr (or_introl eq_refl)) as (tid & Htid & _).
    intros Hnil. rewrite Hnil in Htid. destruct Htid.
  - destruct lyrics_dfs as [|l ls]; [discriminate Hldf|].
    cbn in Hldf. injection Hldf as <-. discriminate.
Qed.

Lemma main_completed_run_is_not_empty_witness :
  exists out, fst (main web_a1 (Ok ["a1"])) = Ok (Some out)
              /\ kpop_girl_group_lyrics out <> [].
Proof.
  eexists. split; [reflexivity|].
  apply (main_completed_run_is_not_empty web_a1 ["a1"] _ eq_refl).
Defined.

Lemma drop_duplicates_from_distinct {A} (same : A -> A -> bool) (seen l : list A) :
  ForallOrdPairs (fun x y => same y x = false) (drop_duplicates_from same seen l)
  /\ Forall (fun y => existsb (same y) seen = false) (drop_duplicates_from same seen l).
Proof.
  revert seen. induction l as [|x t IH]; intros seen; cbn [drop_duplicates_from].
  - split; constructor.
  - destruct (existsb (same x) seen) eqn:E; [apply IH|].
    destruct (IH (x :: seen)) as [Hpairs Hseen]. split.
    + constructor; [|exact Hpairs].
      revert Hseen. apply Forall_impl. intros y Hy. cbn [existsb] in Hy.
      apply orb_false_iff in Hy. apply Hy.
    + constructor; [exact E|].
      revert Hseen. apply Forall_impl. intros y Hy. cbn [existsb] in Hy.
      apply orb_false_iff in Hy. apply Hy.
Qed.

(** X10: in the album table a completed run of [main] writes, no two rows
    have both the same album_id and the same album_title. *)
Theorem main_album_rows_are_distinct (web : string -> response)
    (artist_id_list : list string) (out : Outputs) :
  fst (main web (Ok artist_id_list)) = Ok (Some out) ->
  ForallOrdPairs
    (fun x y => AlbumFinal.album_id x <> AlbumFinal.album_id y
                \/ AlbumFinal.album_title x <> AlbumFinal.album_title y)
    (kpop_girl_group_albums out).
Proof.
  unfold main. intros H.
  apply bind_ok in H. destruct H as (all & _ & H). cbv zeta in H.
  apply bind_ok in H. destruct H as (text_columns & _ & H).
  apply bind_ok in H. destruct H as (details & _ & H).
  apply bind_ok in H. destruct H as (detail_df & _ & H).
  apply bind_ok in H. destruct H as (album_tracks & _ & H).
  apply bind_ok in H. destruct H as (track_df & _ & H).
  apply bind_ok in H. destruct H as (lyrics_dfs & _ & H).
  apply bind_ok in H. destruct H as (lyrics_df & _ & H).
  injection H as <-. cbn [kpop_girl_group_albums]. unfold drop_duplicates.
  destruct (drop_duplicates_from_distinct same_id_title []
              (merge_left same_album_id (clean_albums all) detail_df)) as [Hpairs _].
  induction Hpairs as [|x l Hx _ IH]; constructor; [|exact IH].
  revert Hx. apply Forall_impl. intros y Hy.
  unfold same_id_title in Hy. apply andb_false_iff in Hy.
  destruct Hy as [Hy | Hy]; apply String.eqb_neq in Hy; [left | right]; congruence.
Qed.

Lemma main_album_rows_are_distinct_witness :
  exists out, fst (main web_a1 (Ok ["a1"; "a1"])) = Ok (Some out)
              /\ map AlbumFinal.album_id (kpop_girl_group_albums out) = ["100"]
              /\ ForallOrdPairs
                   (fun x y => AlbumFinal.album_id x <> AlbumFinal.album_id y
                               \/ AlbumFinal.album_title x <> AlbumFinal.album_title y)
                   (kpop_girl_group_albums out).
Proof.
  eexists. split; [reflexivity|]. split; [reflexivity|].
  apply (main_album_rows_are_distinct web_a1 ["a1"; "a1"] _ eq_refl).
Defined.

(** X18: as soon as one album block of an artist's page has no albumid
    attribute, no title element or no artist element, [get_artist_albums]
    raises for the whole page, and so does a run of [main] that has this
    artist in its list. *)
Theorem get_artist_albums_raises_on_incomplete_block (web : string -> response)
    (artist_id_list : list string) (artist_id : string) (block : node) :
  let r := web (BASE_URL ++ "/artist/" ++ artist_id ++ "/albums") in
  In artist_id artist_id_list ->
  In block (find_all "figure" (Some "albumInfo") (html r)) ->
  (exists e, getitem (Some block) "albumid" = Raise e)
  \/ find "div" (Some "albumTitle") block = None
  \/ find "p" (Some "artist") block = None ->
  (exists e, fst (get_artist_albums web artist_id) = Raise e)
  /\ (exists e, fst (main web (Ok artist_id_list)) = Raise e).
Proof.
  intros r Hin Hblock Hmiss.
  assert (Hraise : exists e, fst (get_artist_albums web artist_id) = Raise e).
  { rewrite get_artist_albums_result. fold r.
    destruct (fetch_fails r); [eexists; reflexivity|].
    unfold albums_of_soup.
    apply (rmap_raises (album_row artist_id) _ block Hblock).
    unfold album_row.
    destruct Hmiss as [[e He] | [Ht | Ha]].
    - rewrite He. eexists; reflexivity.
    - destruct (getitem (Some block) "albumid"); [|eexists; reflexivity].
      cbn [rbind]. rewrite Ht. eexists; reflexivity.
    - destruct (getitem (Some block) "albumid"); [|eexists; reflexivity].
      cbn [rbind]. destruct (find "div" (Some "albumTitle") block);
        [|eexists; reflexivity].
      cbn [dot_text rbind]. rewrite Ha. eexists; reflexivity. }
  split; [exact Hraise|].
  destruct (for_each_raises (get_artist_albums web) artist_id_list artist_id Hin Hraise)
    as [e He].
  exists e. unfold main. rewrite bind_result. unfold collect_albums.
  rewrite bind_result, He. reflexivity.
Qed.

Lemma get_artist_albums_raises_on_incomplete_block_witness :
  exists e, fst (main (serve (document [block_without_markers; block_without_title]))
                      (Ok ["a1"])) = Raise e.
Proof.
  apply (get_artist_albums_raises_on_incomplete_block
           (serve (document [block_without_markers; block_without_title]))
           ["a1"] "a1" block_without_title).
  - left. reflexivity.
  - right. left. reflexivity.
  - right. left. reflexivity.
Defined.

End ScraperMore.

(* ===================================================================== *)
(** * Further properties: the cleaner *)
(* ===================================================================== *)

Section CleanerMore.
Import PyStr Pandas Regex KpopDataCleaner Samples.

(** *** The release date *)







(** The release_date step gives a date or the null date. *)
Lemma clean_release_date_total (other : list string -> string -> option date)
    (column : list string) (d : dtype) (c : cell) :
  clean_release_date other column d c = NaT
  \/ exists t, clean_release_date other column d c = Timestamp t.
Proof.
  unfold clean_release_date, to_datetime_text, to_datetime_other.
  destruct (is_null_text _); [auto|].
  destruct (option_map _ _) as [[f|]|];
    try (destruct (read_as f _); [destruct (in_ns_bounds _) | destruct (cannot_match _ _)]);
    try destruct (other _ _); eauto.
Qed.





(** *** The markup patterns *)

Lemma lazy_until_unfold (stop s : string) :
  lazy_until stop s =
  if prefix stop s then Some ("", drop (String.length stop) s)
  else match s with
       | EmptyString => None
       | String c t =>
           if Ascii.eqb c LF then None
           else match lazy_until stop t with
                | Some (u, r) => Some (String c u, r)
                | None => None
                end
       end.
Proof. destruct s; reflexivity. Qed.

(** The lazy run stops at the first [stop] when the first character of
    [stop] and the line feed do not occur before it. *)
Lemma lazy_until_app (c0 : ascii) (stop' u r : string) :
  mem c0 u = false -> mem LF u = false ->
  lazy_until (String c0 stop') (u ++ String c0 stop' ++ r) = Some (u, r).
Proof.
  induction u as [|c u IH]; intros Hc Hlf; rewrite lazy_until_unfold.
  - change ("" ++ String c0 stop' ++ r) with (String c0 stop' ++ r).
    rewrite (prefix_app (String c0 stop') r).
    rewrite (drop_app (String c0 stop') r). reflexivity.
  - cbn [mem] in Hc, Hlf. apply orb_false_iff in Hc, Hlf.
    destruct Hc as [Hc Hcu], Hlf as [Hl Hlu].
    change (String c u ++ String c0 stop' ++ r)
      with (String c (u ++ String c0 stop' ++ r)).
    rewrite prefix_first by (apply Ascii.eqb_neq; exact Hc).
    rewrite Ascii.eqb_sym, Hl, (IH Hcu Hlu). reflexivity.
Qed.

Lemma match_wrapped_app (tag attrs inner rest : string) :
  mem ">" attrs = false -> mem LF attrs = false ->
  mem "<" inner = false -> mem LF inner = false ->
  match_wrapped tag
    (("<" ++ tag) ++ attrs ++ ">" ++ inner ++ ("</" ++ tag ++ ">") ++ rest)
  = Some (inner, rest).
Proof.
  intros Ha1 Ha2 Hi1 Hi2. unfold match_wrapped.
  rewrite prefix_app, drop_app.
  rewrite (lazy_until_app ">" "" attrs _ Ha1 Ha2).
  apply (lazy_until_app "<" (String "/" (tag ++ ">")) inner rest Hi1 Hi2).
Qed.

Lemma match_wrapped_other (tag : string) (c : ascii) (t : string) :
  Ascii.eqb "<" c = false -> match_wrapped tag (String c t) = None.
Proof.
  intros H. unfold match_wrapped.
  change ("<" ++ tag) with (String "<" tag).
  rewrite prefix_first by (apply Ascii.eqb_neq; exact H). reflexivity.
Qed.

Lemma unwrap_from_skip (tag m rest : string) (k : nat) :
  unwrap_from tag (String.length m + k) (m ++ rest) = unwrap_from tag k rest.
Proof. induction m as [|c m IH]; cbn; [destruct rest; reflexivity | exact IH]. Qed.

Lemma unwrap_from_plain (tag pre s : string) :
  mem "<" pre = false -> unwrap_from tag 0 (pre ++ s) = pre ++ unwrap_from tag 0 s.
Proof.
  induction pre as [|c pre IH]; intros H; [reflexivity|].
  cbn [mem] in H. apply orb_false_iff in H. destruct H as [Hc Hpre].
  change (String c pre ++ s) with (String c (pre ++ s)). cbn [unwrap_from].
  rewrite match_wrapped_other by exact Hc. rewrite (IH Hpre). reflexivity.
Qed.

(** X11: the substitution of lines 107 and 114 leaves a text without [<]
    as it is, and replaces an element [<tag ATTRS>INNER</tag>] that follows
    such a text by INNER, then goes on with what follows the element
    (ATTRS without [>], INNER without [<], both on one line). *)
Theorem unwrap_element (tag : string) :
  (forall s, mem "<" s = false -> unwrap tag s = s)
  /\ (forall pre attrs inner rest,
        mem "<" pre = false ->
        mem ">" attrs = false -> mem LF attrs = false ->
        mem "<" inner = false -> mem LF inner = false ->
        unwrap tag (pre ++ ("<" ++ tag) ++ attrs ++ ">" ++ inner
                        ++ ("</" ++ tag ++ ">") ++ rest)
        = pre ++ inner ++ unwrap tag rest).
Proof.
  unfold unwrap. split.
  - intros s Hs. rewrite <- (str_app_nil_r s) at 1.
    rewrite unwrap_from_plain by exact Hs. cbn. apply str_app_nil_r.
  - intros pre attrs inner rest Hpre Ha1 Ha2 Hi1 Hi2.
    rewrite unwrap_from_plain by exact Hpre. f_equal.
    set (body := tag ++ attrs ++ ">" ++ inner ++ ("</" ++ tag ++ ">")).
    assert (Hs : ("<" ++ tag) ++ attrs ++ ">" ++ inner ++ ("</" ++ tag ++ ">") ++ rest
                 = String "<" (body ++ rest)).
    { subst body. rewrite !str_app_assoc. reflexivity. }
    pose proof (match_wrapped_app tag attrs inner rest Ha1 Ha2 Hi1 Hi2) as Hm.
    rewrite Hs in Hm |- *. cbn [unwrap_from]. rewrite Hm. f_equal.
    cbn [String.length]. rewrite str_app_length.
    replace (S (String.length body + String.length rest) - String.length rest - 1)%nat
      with (String.length body + 0)%nat by lia.
    apply unwrap_from_skip.
Qed.

Lemma unwrap_element_witness :
  unwrap "time" ("2023: " ++ ("<" ++ "time") ++ " class='d'" ++ ">" ++ "2023.04.10"
                          ++ ("</" ++ "time" ++ ">") ++ " (KST)")
  = "2023: " ++ "2023.04.10" ++ unwrap "time" " (KST)".
Proof.
  apply (proj2 (unwrap_element "time") "2023: " " class='d'" "2023.04.10" " (KST)");
    reflexivity.
Defined.

(** *** The artist name *)

Lemma split_first_unfold (sep s : string) :
  split_first sep s =
  if prefix sep s then EmptyString
  else match s with
       | EmptyString => EmptyString
       | String c t => String c (split_first sep t)
       end.
Proof. destruct s; reflexivity. Qed.

Lemma split_first_prefix (sep s : string) : exists rest, s = split_first sep s ++ rest.
Proof.
  induction s as [|c s [rest IH]]; rewrite split_first_unfold.
  - destruct (prefix sep ""); exists ""; reflexivity.
  - destruct (prefix sep (String c s)); [eexists; reflexivity|].
    exists rest. cbn. rewrite <- IH. reflexivity.
Qed.

Lemma split_first_without (sep s : string) :
  contains sep s = false -> split_first sep s = s.
Proof.
  induction s as [|c s IH]; rewrite contains_unfold, split_first_unfold.
  - destruct (prefix sep ""); [discriminate | reflexivity].
  - destruct (prefix sep (String c s)); [discriminate|].
    intros H. rewrite (IH H). reflexivity.
Qed.

Lemma split_first_free (sep s : string) :
  sep <> "" -> contains sep (split_first sep s) = false.
Proof.
  intros Hsep. induction s as [|c s IH]; rewrite split_first_unfold.
  - destruct (prefix sep "") eqn:E; rewrite contains_unfold;
      (destruct (prefix sep "") eqn:E'; [|reflexivity]);
      destruct sep; [contradiction | discriminate | contradiction | discriminate].
  - destruct (prefix sep (String c s)) eqn:E.
    + rewrite contains_unfold.
      destruct (prefix sep "") eqn:E'; [|reflexivity].
      destruct sep; [contradiction | discriminate].
    + rewrite contains_unfold.
      destruct (prefix sep (String c (split_first sep s))) eqn:E'; [|exact IH].
      destruct (split_first_prefix sep s) as [rest Hrest].
      apply (prefix_app_r _ _ rest) in E'. cbn [append] in E'.
      rewrite <- Hrest in E'. congruence.
Qed.

(** What [split_first] returns is followed by the separator, when there
    is one. *)
Lemma split_first_followed (sep s : string) :
  contains sep s = true -> exists rest, s = split_first sep s ++ sep ++ rest.
Proof.
  induction s as [|c s IH]; rewrite contains_unfold, split_first_unfold.
  - destruct (prefix sep "") eqn:E; [|discriminate]. intros _.
    apply prefix_split in E. exact E.
  - destruct (prefix sep (String c s)) eqn:E.
    + intros _. apply prefix_split in E. exact E.
    + intros H. destruct (IH H) as [rest Hrest]. exists rest.
      cbn [append]. rewrite <- Hrest. reflexivity.
Qed.

(** No separator starts before the end of what [split_first] returns. *)
Lemma split_first_minimal (sep u v : string) :
  exists w, u = split_first sep (u ++ sep ++ v) ++ w.
Proof.
  induction u as [|c u [w IH]]; rewrite split_first_unfold.
  - cbn [append]. rewrite prefix_app. exists "". reflexivity.
  - cbn [append]. destruct (prefix sep (String c (u ++ sep ++ v))).
    + eexists. reflexivity.
    + exists w. cbn [append]. rewrite <- IH. reflexivity.
Qed.

(** X12: [artist_name_clean] is always a text: the string of the artist
    name up to its first LF LF CR LF.  It is the whole string when that
    separator does not occur; otherwise it is followed by the separator in
    the name, no separator of the name starts before its end, and it holds
    no separator itself.  A null artist name gives the text 'nan'. *)
Theorem clean_artist_name_first_segment (d : dtype) (c : cell) :
  exists name s,
    astype_str d c = Str name
    /\ clean_artist_name d c = Str s
    /\ (exists rest, name = s ++ rest)
    /\ contains ARTIST_SEP s = false
    /\ (contains ARTIST_SEP name = false -> s = name)
    /\ (contains ARTIST_SEP name = true -> exists rest, name = s ++ ARTIST_SEP ++ rest)
    /\ (forall u v, name = u ++ ARTIST_SEP ++ v -> exists w, u = s ++ w)
    /\ (c = NaN -> s = "nan").
Proof.
  unfold clean_artist_name.
  destruct (astype_str_is_str d c) as [name Hname]. rewrite Hname. cbn [str_map].
  exists name, (split_first ARTIST_SEP name).
  split; [reflexivity|]. split; [reflexivity|].
  split; [apply split_first_prefix|].
  split; [apply split_first_free; discriminate|].
  split; [apply split_first_without|].
  split; [apply split_first_followed|].
  split; [intros u v ->; apply split_first_minimal|].
  intros ->. cbn in Hname. injection Hname as <-. reflexivity.
Qed.

Lemma clean_artist_name_first_segment_witness :
  clean_artist_name object (Str ("IVE" ++ ARTIST_SEP ++ "(아이브)" ++ ARTIST_SEP)) = Str "IVE".
Proof.
  destruct (clean_artist_name_first_segment object
              (Str ("IVE" ++ ARTIST_SEP ++ "(아이브)" ++ ARTIST_SEP)))
    as (name & s & Hname & Hs & _ & _ & _ & _ & Hfirst & _).
  injection Hname as <-. rewrite Hs. f_equal.
  destruct (Hfirst "IVE" ("(아이브)" ++ ARTIST_SEP) eq_refl) as [w Hw].
  destruct s as [|c1 [|c2 [|c3 s]]]; cbn in Hs; try discriminate Hs.
  cbn in Hw. injection Hw as <- <- <- Hw. destruct s; [reflexivity | discriminate Hw].
Defined.

(** *** The title patterns *)

Lemma lower_app (a b : string) : lower (a ++ b) = lower a ++ lower b.
Proof. induction a as [|c a IH]; cbn; [reflexivity | rewrite IH; reflexivity]. Qed.

Lemma lower_char_line_feed (c : ascii) : Ascii.eqb (lower_char c) LF = Ascii.eqb c LF.
Proof. destruct c as [[] [] [] [] [] [] [] []]; reflexivity. Qed.

Lemma search_lowered_unfold (alts : list alt) (s : string) :
  search_lowered alts s =
  existsb (fun a => alt_at a s) alts ||
  match s with
  | EmptyString => false
  | String _ t => search_lowered alts t
  end.
Proof. destruct s; reflexivity. Qed.

Lemma search_lowered_app (alts : list alt) (pre s : string) :
  existsb (fun a => alt_at a s) alts = true -> search_lowered alts (pre ++ s) = true.
Proof.
  intros H. induction pre as [|c pre IH]; rewrite search_lowered_unfold.
  - cbn [append]. rewrite H. reflexivity.
  - cbn [append]. rewrite IH. apply orb_true_r.
Qed.

(** X13: the tests of lines 156 and 162 find a marker wherever it stands in
    a title and in whatever letter case it is written; the marker ' ver.'
    is found when ' ver', in any case, is followed by any character but a
    line feed (so also in ' very' or ' version'). *)
Theorem search_nocase_finds_markers (alts : list alt) :
  (forall p x a b, In (Lit p) alts -> lower x = p ->
                   search_nocase alts (a ++ x ++ b) = true)
  /\ (forall p x c a b, In (LitDot p) alts -> lower x = p -> c <> LF ->
                       search_nocase alts (a ++ x ++ String c b) = true).
Proof.
  unfold search_nocase. split.
  - intros p x a b Hin Hx. rewrite !lower_app, Hx.
    apply search_lowered_app, existsb_exists.
    exists (Lit p). split; [exact Hin|]. cbn. apply prefix_app.
  - intros p x c a b Hin Hx Hc. rewrite !lower_app, Hx.
    apply search_lowered_app, existsb_exists.
    exists (LitDot p). split; [exact Hin|]. cbn [alt_at lower].
    rewrite prefix_app, drop_app, lower_char_line_feed.
    apply Ascii.eqb_neq in Hc. rewrite Hc. reflexivity.
Qed.

Lemma search_nocase_finds_markers_witness :
  search_nocase album_patterns ("Love Dive (" ++ "ReMiX" ++ ")") = true
  /\ search_nocase song_patterns ("My" ++ " Ver" ++ String "y" " Best") = true.
Proof.
  split.
  - apply (proj1 (search_nocase_finds_markers album_patterns) "remix").
    + left. reflexivity.
    + reflexivity.
  - apply (proj2 (search_nocase_finds_markers song_patterns) " ver").
    + do 5 right. left. reflexivity.
    + reflexivity.
    + discriminate.
Defined.

(** *** clean_track_ids *)

Lemma filter_none_negb {A} (p : A -> bool) (l : list A) :
  filter p l = [] -> filter (fun x => negb (p x)) l = l.
Proof.
  induction l as [|x t IH]; cbn; [reflexivity|].
  destruct (p x); [discriminate|]. cbn. intros H. rewrite (IH H). reflexivity.
Qed.

Lemma filter_map_comm {A B} (p : B -> bool) (f : A -> B) (l : list A) :
  filter p (map f l) = map f (filter (fun x => p (f x)) l).
Proof.
  induction l as [|x t IH]; cbn; [reflexivity|].
  destruct (p (f x)); cbn; rewrite IH; reflexivity.
Qed.

Lemma to_numeric_cell_isna (c : cell) :
  negb (isna (to_numeric_cell c)) = is_int (to_numeric_cell c).
Proof. destruct c; cbn; try reflexivity. destruct (parse_int s); reflexivity. Qed.

Lemma digits_stop (acc : Z) (a : string) (c : ascii) (b : string) :
  digit c = None -> digits acc (a ++ String c b) = None.
Proof.
  intros Hc. revert acc. induction a as [|x a IH]; intros acc; cbn [append digits].
  - rewrite Hc. reflexivity.
  - destruct (digit x); [apply IH | reflexivity].
Qed.

(** A text of digits does not hold the login-wall text. *)
Lemma digits_not_login_layer (s : string) (z : Z) :
  digits 0 s = Some z -> contains "howLoginLayer" s = false.
Proof.
  intros Hz. destruct (contains "howLoginLayer" s) eqn:E; [|reflexivity].
  apply contains_spec in E. destruct E as (a & b & ->).
  change ("howLoginLayer" ++ b) with (String "h" ("owLoginLayer" ++ b)) in Hz.
  rewrite digits_stop in Hz; [discriminate Hz | reflexivity].
Qed.

Lemma digits_without_digit (acc : Z) (c : ascii) (t : string) :
  has_digit (String c t) = false -> digits acc (String c t) = None.
Proof. cbn [has_digit digits]. destruct (digit c); [discriminate | reflexivity]. Qed.

(** An integer literal holds a digit. *)
Lemma parse_int_without_digit (s : string) : has_digit s = false -> parse_int s = None.
Proof.
  destruct s as [|c t]; [reflexivity|]. intros H.
  assert (Hall : digits 0 (String c t) = None) by (apply digits_without_digit, H).
  assert (Htail : forall c' t', t = String c' t' -> digits 0 t = None).
  { intros c' t' ->. apply digits_without_digit.
    cbn [has_digit] in H. destruct (digit c); [discriminate H | exact H]. }
  unfold parse_int.
  destruct c as [[] [] [] [] [] [] [] []]; try exact Hall;
    (destruct t as [|c' t']; [exact Hall|]);
    rewrite (Htail c' t' eq_refl); reflexivity.
Qed.

(** A text of digits is the integer literal of its number. *)
Lemma parse_int_digits (s : string) (z : Z) :
  s <> "" -> digits 0 s = Some z -> parse_int s = Some z.
Proof.
  destruct s as [|c t]; [contradiction|]. intros _ Hz.
  unfold parse_int.
  destruct c as [[] [] [] [] [] [] [] []]; try exact Hz; discriminate Hz.
Qed.

(** On a plain identifier, the row is kept with its number exactly when
    the identifier is a text of digits. *)
Lemma plain_id_numbered (r : Tracks.t cell) :
  plain_id (Tracks.track_id r) = true ->
  (if negb (is_login_layer r) && is_int (to_numeric_cell (Tracks.track_id r))
   then Some (Tracks.set_track_id (to_numeric_cell (Tracks.track_id r)) r)
   else None) = numbered r.
Proof.
  unfold numbered, is_login_layer. destruct (Tracks.track_id r) as [|z|s|t|];
    cbn [plain_id]; try discriminate; [reflexivity|].
  cbn [str_contains to_numeric_cell].
  destruct (digits 0 s) as [z|] eqn:Ez; cbn [option_map].
  - intros Hlen. apply andb_true_iff in Hlen. destruct Hlen as [Hlen _].
    rewrite (digits_not_login_layer _ _ Ez).
    rewrite (parse_int_digits s z); [reflexivity | | exact Ez].
    intros ->. discriminate Hlen.
  - intros Hno. apply andb_true_iff in Hno. destruct Hno as [Hno _].
    apply negb_true_iff in Hno. rewrite (parse_int_without_digit _ Hno).
    cbn [is_int]. rewrite andb_false_r. reflexivity.
Qed.

Lemma map_filter_numbered {A B} (p : A -> bool) (f : A -> B) (g : A -> option B)
    (l : list A) :
  Forall (fun x => (if p x then Some (f x) else None) = g x) l ->
  map f (filter p l)
  = flat_map (fun x => match g x with Some y => [y] | None => [] end) l.
Proof.
  induction 1 as [|x t Hx _ IH]; [reflexivity|]. cbn [filter flat_map].
  rewrite <- Hx. destruct (p x); cbn [map app]; rewrite IH; reflexivity.
Qed.

(** X14: [clean_track_ids] raises AttributeError when the track_id column
    is not text.  On a text column whose identifiers are plain (a null, a
    text of one to fifteen digits, or an ASCII text without any digit that
    does not spell an infinity) it returns, in their order, exactly the rows whose identifier is a text
    of digits, each with the number these digits write as identifier, in
    an int64 column: the other columns are untouched, and the rows with
    the login-wall text or a null as identifier are gone. *)
Theorem clean_track_ids_keeps_numeric_ids (track_df : DataFrame Tracks.t) :
  (Tracks.track_id (dtypes track_df) <> object ->
   clean_track_ids track_df = Raise AttributeError)
  /\ (Tracks.track_id (dtypes track_df) = object ->
      forallb (fun r => plain_id (Tracks.track_id r)) (rows track_df) = true ->
      exists out,
        clean_track_ids track_df = Ok out
        /\ dtypes out = Tracks.set_track_id int64 (dtypes track_df)
        /\ rows out
           = flat_map (fun r => match numbered r with
                                | Some r' => [r']
                                | None => []
                                end) (rows track_df)
        /\ Forall (fun r => exists z, Tracks.track_id r = Int z) (rows out)).
Proof.
  split.
  - intros Hd. unfold clean_track_ids.
    destruct (Tracks.track_id (dtypes track_df)); try reflexivity. contradiction.
  - intros Hd Hplain. unfold clean_track_ids. rewrite Hd. cbn [str_accessor rbind].
    eexists. split; [reflexivity|]. unfold convert_track_ids.
    set (kept := match rows (select is_login_layer track_df) with
                 | [] => track_df
                 | _ :: _ => select (fun r => negb (is_login_layer r)) track_df
                 end).
    assert (Hkept : dtypes kept = dtypes track_df
                    /\ rows kept = filter (fun r => negb (is_login_layer r)) (rows track_df)).
    { subst kept. cbn [select rows].
      destruct (filter is_login_layer (rows track_df)) eqn:E; cbn [select rows dtypes].
      - split; [reflexivity | symmetry; apply filter_none_negb, E].
      - split; reflexivity. }
    destruct Hkept as [Hdt Hrows]. unfold select. cbn [rows dtypes].
    rewrite astype_int64_after_dropna. cbn [rows dtypes]. rewrite Hdt, Hrows.
    assert (Heq : filter (fun r => negb (isna (Tracks.track_id r)))
                    (map (fun r => Tracks.set_track_id (to_numeric_cell (Tracks.track_id r)) r)
                         (filter (fun r => negb (is_login_layer r)) (rows track_df)))
                  = flat_map (fun r => match numbered r with
                                       | Some r' => [r']
                                       | None => []
                                       end) (rows track_df)).
    { rewrite filter_map_comm, filter_twice.
      rewrite <- (map_filter_numbered
                    (fun r => negb (is_login_layer r)
                              && is_int (to_numeric_cell (Tracks.track_id r)))
                    (fun r => Tracks.set_track_id (to_numeric_cell (Tracks.track_id r)) r)).
      - f_equal. apply filter_ext. intros r. cbn [Tracks.set_track_id Tracks.track_id].
        rewrite to_numeric_cell_isna. reflexivity.
      - apply Forall_forall. intros r Hr. apply plain_id_numbered.
        rewrite forallb_forall in Hplain. apply Hplain, Hr. }
    rewrite Heq. split; [reflexivity|]. split; [reflexivity|].
    apply Forall_forall. intros r' Hr'. apply in_flat_map in Hr'.
    destruct Hr' as (r & _ & Hr'). unfold numbered in Hr'.
    destruct (Tracks.track_id r) as [| |s| |]; try destruct Hr'.
    destruct (digits 0 s) as [z|]; cbn [option_map] in Hr'; [|destruct Hr'].
    destruct Hr' as [<- | []]. exists z. reflexivity.
Qed.

Lemma clean_track_ids_keeps_numeric_ids_witness :
  clean_track_ids tracks_clean = Raise AttributeError
  /\ exists out, clean_track_ids tracks_raw = Ok out
                 /\ rows out = [Tracks.mk (Int 100) (Int 31751848) (Str "Kitsch")].
Proof.
  split.
  - apply (proj1 (clean_track_ids_keeps_numeric_ids tracks_clean)). discriminate.
  - destruct (proj2 (clean_track_ids_keeps_numeric_ids tracks_raw) eq_refl eq_refl)
      as (out & Hout & _ & Hrows & _).
    exists out. split; [exact Hout | exact Hrows].
Defined.

(** *** process_data *)

Lemma filter_data_result {R : Type -> Type} (cols : FilterColumns R) (df : DataFrame R) :
  filter_data cols df =
  if forallb (fun gp => fst gp (dtypes df)) (filter_checks cols)
  then Ok (select (fun r => forallb (fun gp => snd gp r) (filter_checks cols)) df)
  else Raise AttributeError.
Proof.
  rewrite filter_data_steps. apply apply_steps_selections, filter_steps_selections.
Qed.

Lemma reconcile_album_dtypes (df_total : DataFrame AlbumTracks.t) (lyrics_df : DataFrame LyricsCsv.t) :
  AlbumTracks.album (dtypes (fst (reconcile df_total lyrics_df)))
  = AlbumTracks.album (dtypes df_total).
Proof.
  unfold reconcile. destruct (negb _); [|reflexivity].
  destruct (is_numeric_dtype _); reflexivity.
Qed.

(** The two joins leave the dtypes of the album columns as they are. *)
Lemma merge_datasets_dtypes (album_df : DataFrame Albums.t) (track_df : DataFrame Tracks.t)
    (lyrics_df : DataFrame LyricsCsv.t) (out : DataFrame Total.t) :
  merge_datasets album_df track_df lyrics_df = Ok out ->
  Total.album (dtypes out) = dtypes album_df.
Proof.
  unfold merge_datasets, merge_tracks.
  destruct (keys_accepted (Albums.album_id _) (Tracks.album_id _) _ _); [|discriminate].
  cbn [rbind].
  set (df1 := mkDF _ (map _ _)).
  pose proof (reconcile_album_dtypes df1 lyrics_df) as Ha.
  destruct (reconcile df1 lyrics_df) as [df1' ly']. cbn [fst] in Ha.
  unfold merge_lyrics.
  destruct (keys_accepted (AlbumTracks.track_id _) _ _ _); [|discriminate].
  intros H. injection H as <-. cbn [dtypes Total.album]. rewrite Ha. reflexivity.
Qed.

(** The two joins succeed when the album_id columns can be joined. *)
Lemma merge_datasets_ok (album_df : DataFrame Albums.t) (track_df : DataFrame Tracks.t)
    (lyrics_df : DataFrame LyricsCsv.t) :
  mergeable (Albums.album_id (dtypes album_df)) (Tracks.album_id (dtypes track_df)) = true ->
  exists out, merge_datasets album_df track_df lyrics_df = Ok out.
Proof.
  intros Hkey. unfold merge_datasets, merge_tracks.
  rewrite (keys_accepted_mergeable _ _ _ _ Hkey). cbn [rbind].
  set (df1 := mkDF _ (map _ _)).
  pose proof (reconcile_mergeable df1 lyrics_df) as Hm.
  destruct (reconcile df1 lyrics_df) as [df1' ly']. cbn [fst snd] in Hm.
  unfold merge_lyrics. rewrite (keys_accepted_mergeable _ _ _ _ Hm).
  eexists. reflexivity.
Qed.

(** X15: [process_data] returns None when the files cannot be loaded, when
    the track_id column of the tracks file is not text ([clean_track_ids]
    raises at its [.str]) and when the album_title column of the albums
    file is not text ([filter_data] raises at its [.str], if no earlier
    step has raised): in each case the exception is caught and no cleaned
    table is made.  It returns a table when the track_id column of the
    tracks file is text, with plain identifiers, the album_id columns of
    the albums and tracks files can be joined (both numeric, or of one
    dtype) and the album_title column is text. *)
Theorem process_data_outcome
    (other_formats : list string -> string -> option date)
    (album_df : DataFrame Albums.t) (track_df : DataFrame Tracks.t)
    (lyrics_df : DataFrame LyricsCsv.t) :
  (forall e, process_data other_formats (Raise e) = None)
  /\ (Tracks.track_id (dtypes track_df) <> object ->
      process_data other_formats (Ok (album_df, track_df, lyrics_df)) = None)
  /\ (Albums.album_title (dtypes album_df) <> object ->
      process_data other_formats (Ok (album_df, track_df, lyrics_df)) = None)
  /\ (Tracks.track_id (dtypes track_df) = object ->
      forallb (fun r => plain_id (Tracks.track_id r)) (rows track_df) = true ->
      mergeable (Albums.album_id (dtypes album_df))
                (Tracks.album_id (dtypes track_df)) = true ->
      Albums.album_title (dtypes album_df) = object ->
      exists out,
        process_data other_formats (Ok (album_df, track_df, lyrics_df)) = Some out).
Proof.
  split; [reflexivity|]. unfold process_data. cbn [rbind fst snd].
  split; [|split].
  - intros Hd. unfold clean_track_ids.
    destruct (Tracks.track_id (dtypes track_df)); try reflexivity. contradiction.
  - intros Hd.
    destruct (clean_track_ids track_df) as [cleaned|]; [|reflexivity]. cbn [rbind].
    destruct (merge_datasets album_df cleaned lyrics_df) as [df_total|] eqn:Em;
      [|reflexivity].
    cbn [rbind]. apply merge_datasets_dtypes in Em. rewrite filter_data_result.
    assert (Hchecks : forallb (fun gp => fst gp (dtypes (clean_html_tags other_formats df_total)))
                        (filter_checks total_columns) = false).
    { cbn. rewrite Em. destruct (Albums.album_title (dtypes album_df));
        try reflexivity. contradiction. }
    rewrite Hchecks. reflexivity.
  - intros Hd _ Hkey Htitle.
    unfold clean_track_ids. rewrite Hd. cbn [str_accessor rbind].
    set (cleaned := convert_track_ids _).
    assert (Hid : Tracks.album_id (dtypes cleaned) = Tracks.album_id (dtypes track_df)).
    { subst cleaned. unfold convert_track_ids, select. cbn [rows dtypes].
      rewrite astype_int64_after_dropna. cbn [dtypes Tracks.set_track_id Tracks.album_id].
      destruct (filter is_login_layer (rows track_df)); reflexivity. }
    rewrite <- Hid in Hkey.
    destruct (merge_datasets_ok album_df cleaned lyrics_df Hkey) as [df_total Em].
    rewrite Em. cbn [rbind]. apply merge_datasets_dtypes in Em.
    rewrite filter_data_result.
    assert (Hchecks : forallb (fun gp => fst gp (dtypes (clean_html_tags other_formats df_total)))
                        (filter_checks total_columns) = true).
    { cbn. rewrite Em, Htitle. reflexivity. }
    rewrite Hchecks. eexists. reflexivity.
Qed.

Lemma process_data_outcome_witness :
  process_data no_other_format (Ok (albums_csv, tracks_clean, lyrics_csv)) = None
  /\ exists out,
       process_data no_other_format (Ok (albums_csv, tracks_raw, lyrics_csv)) = Some out.
Proof.
  split.
  - apply (proj1 (proj2 (process_data_outcome no_other_format
                           albums_csv tracks_clean lyrics_csv))).
    discriminate.
  - apply (proj2 (proj2 (proj2 (process_data_outcome no_other_format
                                  albums_csv tracks_raw lyrics_csv))));
      reflexivity.
Defined.

(** X16: every row of the table [process_data] returns has lyrics that are
    a text, neither blank nor 'nan' (a row without lyrics never reaches the
    cleaned file), an artist name other than 'Various Artists', a track
    title that is a text without any of the track markers, an album title
    without any of the album markers, a text as artist_name_clean and a date
    or the null date as release_date. *)
Theorem process_data_rows (other_formats : list string -> string -> option date)
    (loaded : result (DataFrame Albums.t * DataFrame Tracks.t * DataFrame LyricsCsv.t))
    (out : DataFrame Total.t) :
  process_data other_formats loaded = Some out ->
  Forall (fun r =>
            (exists s, Total.lyrics r = Str s /\ strip_ws s <> "" /\ s <> "nan")
            /\ Total.artist_name r <> Str "Various Artists"
            /\ (exists s, Total.track_title r = Str s /\ search_nocase song_patterns s = false)
            /\ (forall s, Total.album_title r = Str s -> search_nocase album_patterns s = false)
            /\ (exists s, Total.artist_name_clean r = Some (Str s))
            /\ (Albums.release_date (Total.album r) = NaT
                \/ exists d, Albums.release_date (Total.album r) = Timestamp d))
         (rows out).
Proof.
  unfold process_data. intros H.
  destruct loaded as [data|]; [|discriminate]. cbn [rbind] in H.
  destruct (clean_track_ids (snd (fst data))) as [track_df|]; [|discriminate].
  cbn [rbind] in H.
  destruct (merge_datasets (fst (fst data)) track_df (snd data)) as [df_total|]; [|discriminate].
  cbn [rbind] in H. rewrite filter_data_result in H.
  destruct (forallb _ (filter_checks total_columns)); [|discriminate].
  injection H as <-. cbn [select rows clean_html_tags].
  apply Forall_forall. intros r Hr. apply filter_In in Hr. destruct Hr as [Hr Hkeep].
  apply in_map_iff in Hr. destruct Hr as (r0 & <- & _).
  cbn [filter_checks forallb snd] in Hkeep.
  unfold keeps_artist, keeps_lyrics, keeps_album, keeps_track in Hkeep.
  cbn [total_columns col_artist_name col_lyrics col_album_title col_track_title
       Total.artist_name Total.lyrics Total.album_title Total.track_title
       Total.album Albums.artist_name Albums.album_title] in Hkeep.
  rewrite andb_true_r in Hkeep.
  apply andb_true_iff in Hkeep. destruct Hkeep as [Hartist Hkeep].
  apply andb_true_iff in Hkeep. destruct Hkeep as [Hlyrics Hkeep].
  apply andb_true_iff in Hkeep. destruct Hkeep as [Halbum Htrack].
  cbn [Total.lyrics Total.artist_name Total.track_title Total.album_title
       Total.artist_name_clean Total.album Albums.artist_name Albums.album_title
       Albums.release_date].
  unfold clean_text in *.
  destruct (astype_str_is_str (Total.lyrics (dtypes df_total)) (Total.lyrics r0)) as [sl Hsl].
  destruct (astype_str_is_str (Total.track_title (dtypes df_total)) (Total.track_title r0))
    as [st Hst].
  rewrite Hsl in *. rewrite Hst in *. cbn [str_map] in *.
  split; [|split; [|split; [|split; [|split]]]].
  - eexists. split; [reflexivity|].
    apply andb_true_iff in Hlyrics. destruct Hlyrics as [Hb Hn].
    cbn [not_blank ne] in Hb, Hn. apply negb_true_iff in Hb, Hn.
    apply String.eqb_neq in Hb, Hn. auto.
  - intros Heq. rewrite Heq in Hartist. discriminate Hartist.
  - eexists. split; [reflexivity|]. apply negb_true_iff in Htrack. exact Htrack.
  - intros s Hs. rewrite Hs in Halbum. apply negb_true_iff in Halbum. exact Halbum.
  - unfold clean_artist_name.
    destruct (astype_str_is_str (Albums.artist_name (Total.album (dtypes df_total)))
                (Albums.artist_name (Total.album r0))) as [sa ->].
    eexists; reflexivity.
  - apply clean_release_date_total.
Qed.

Lemma process_data_rows_witness :
  exists out,
    process_data no_other_format (Ok (albums_csv, tracks_raw, lyrics_csv)) = Some out
    /\ Forall (fun r => exists s, Total.lyrics r = Str s /\ strip_ws s <> "" /\ s <> "nan")
              (rows out).
Proof.
  eexists. split; [reflexivity|].
  eapply Forall_impl;
    [| exact (process_data_rows no_other_format
                (Ok (albums_csv, tracks_raw, lyrics_csv)) _ eq_refl)].
  intros r Hr. apply Hr.
Defined.

(** *** clean_html_tags *)

Lemma lstrip_fixed (chars s : string) :
  match s with
  | EmptyString => True
  | String c _ => mem c chars = false
  end -> lstrip chars s = s.
Proof. destruct s as [|c t]; cbn; [reflexivity | intros ->; reflexivity]. Qed.

Lemma rstrip_head (chars s : string) :
  match s with
  | EmptyString => True
  | String c _ => mem c chars = false
  end ->
  match rstrip chars s with
  | EmptyString => True
  | String c _ => mem c chars = false
  end.
Proof.
  destruct s as [|c t]; cbn; [auto|]. intros Hc.
  destruct (rstrip chars t); [rewrite Hc|]; exact Hc.
Qed.

Lemma rstrip_cons (chars : string) (c : ascii) (t : string) :
  rstrip chars (String c t) =
  match rstrip chars t with
  | EmptyString => if mem c chars then EmptyString else String c EmptyString
  | t' => String c t'
  end.
Proof. reflexivity. Qed.

Lemma rstrip_idempotent (chars s : string) :
  rstrip chars (rstrip chars s) = rstrip chars s.
Proof.
  induction s as [|c t IH]; [reflexivity|]. rewrite rstrip_cons.
  destruct (rstrip chars t) as [|d t'] eqn:E.
  - destruct (mem c chars) eqn:Ec; [reflexivity|].
    rewrite rstrip_cons. cbn [rstrip]. rewrite Ec. reflexivity.
  - rewrite rstrip_cons, IH. reflexivity.
Qed.

(** What [strip] returns has nothing left to strip. *)
Lemma strip_idempotent (chars s : string) : strip chars (strip chars s) = strip chars s.
Proof.
  unfold strip.
  rewrite (lstrip_fixed chars (rstrip chars (lstrip chars s))).
  - apply rstrip_idempotent.
  - apply rstrip_head, lstrip_head.
Qed.

Lemma clean_text_trimmed (d : dtype) (c : cell) :
  exists s, clean_text d c = Str s /\ strip_ws s = s /\ (c = NaN -> s = "nan").
Proof.
  unfold clean_text. destruct (astype_str_is_str d c) as [s0 Hs0]. rewrite Hs0.
  cbn [str_map]. eexists. split; [reflexivity|]. split.
  - apply strip_idempotent.
  - intros ->. cbn in Hs0. injection Hs0 as <-. reflexivity.
Qed.

(** X17: [clean_html_tags] keeps every row, in order, and leaves album_id,
    album_title, artist_name, track_id and duration as they are.  In each
    row genre, style, track_title and lyrics become texts without leading or
    trailing white space, and type becomes a text; a null in one of these
    five columns becomes the text 'nan'. *)
Theorem clean_html_tags_rows (other_formats : list string -> string -> option date)
    (df : DataFrame Total.t) :
  let cleaned := fun (before after : cell) =>
    exists s, after = Str s /\ strip_ws s = s /\ (before = NaN -> s = "nan") in
  Forall2 (fun r r' =>
             Total.album_id r' = Total.album_id r
             /\ Total.album_title r' = Total.album_title r
             /\ Total.artist_name r' = Total.artist_name r
             /\ Total.track_id r' = Total.track_id r
             /\ Total.duration r' = Total.duration r
             /\ cleaned (Albums.genre (Total.album r)) (Albums.genre (Total.album r'))
             /\ cleaned (Albums.style (Total.album r)) (Albums.style (Total.album r'))
             /\ cleaned (Total.track_title r) (Total.track_title r')
             /\ cleaned (Total.lyrics r) (Total.lyrics r')
             /\ (exists s, Albums.type (Total.album r') = Str s
                           /\ (Albums.type (Total.album r) = NaN -> s = "nan")))
          (rows df) (rows (clean_html_tags other_formats df)).
Proof.
  intros cleaned. unfold clean_html_tags. cbn [rows].
  eapply Forall2_impl; [|apply Forall2_map_self].
  intros r r' ->. unfold Total.album_id, Total.album_title, Total.artist_name.
  cbn [Total.album Total.track_id Total.duration Total.track_title Total.lyrics
       Albums.album_id Albums.album_title Albums.artist_name Albums.genre Albums.style
       Albums.type].
  repeat (split; [reflexivity|]).
  repeat (split; [apply clean_text_trimmed|]).
  unfold clean_type.
  destruct (astype_str_is_str (Albums.type (Total.album (dtypes df)))
              (Albums.type (Total.album r))) as [s0 Hs0].
  rewrite Hs0. cbn [str_map]. eexists. split; [reflexivity|].
  intros Hn. rewrite Hn in Hs0. cbn in Hs0. injection Hs0 as <-. reflexivity.
Qed.

End CleanerMore.
